(** * A todo-list REST backend (Go, gorilla/mux, PostgreSQL)

    The development follows the packages of the repository:

    - [models]      internal/models/todo.go
    - [database]    migrations/init.sql and the SQL statements the
                    repository issues against the [todos] table
    - [repository]  internal/repository/todo_repository.go
    - [strconv], [json], [mux]  the parts of the libraries the handlers and
                    the router call
    - [handlers]    internal/handlers/todo_handler.go
    - [router]      internal/router/router.go

    Conventions of the model.

    - A timestamp is an integer count of clock ticks.  The code reads two
      clocks: the database's [NOW()] inside the SQL text and the
      application's [time.Now()] in [Update]; they are kept apart.
    - The table is a finite map from the primary key [id] to the other
      columns of the row; the SERIAL column comes with its sequence.
    - A round trip to the database either runs its statement or is refused
      with an error: the connection is lost, or the engine rejects the
      statement for a reason the model does not track (a title that does not
      fit VARCHAR(255), an id beyond the range of the SERIAL column).  Which
      one happens is an input of the operation, the [fault] of that round
      trip; a refused round trip leaves the table as it was.  A statement
      that runs stores the values it was sent.  The one rejection that is
      tracked is that of a key already taken (PRIMARY KEY).
    - Calls run one after the other; the interleaving of the two round trips
      of [Update] with other writers is not modelled.
    - Go's [(value, error)] results are values of [result]; a nil slice is
      kept apart from an empty one.  A Go string is the sequence of its
      bytes, text being in UTF-8. *)

From Stdlib Require Import Ascii.
From stdpp Require Import gmap strings list sorting.

Local Open Scope Z_scope.
Set Warnings "-register-all".

(** ** Go preliminaries *)

Definition Time := Z.

(** An [error] value.  The text of a library error is not spelled out. *)
Inductive error :=
  | ErrNoRows                       (* sql.ErrNoRows *)
  | ErrScanNull (column : string)   (* Scan: converting NULL to a Go value *)
  | ErrUniqueViolation              (* todos_pkey *)
  | ErrStorage (msg : string).      (* any other failure of a round trip *)

Inductive result (A : Type) :=
  | Ok (a : A)
  | Err (e : error).
Arguments Ok {A} a.
Arguments Err {A} e.

(** A slice: [None] is the nil slice. *)
Definition slice (A : Type) := option (list A).

Definition append {A} (s : slice A) (x : A) : slice A :=
  match s with
  | None => Some [x]
  | Some l => Some (l ++ [x])
  end.

Definition elems {A} (s : slice A) : list A := default [] s.

(** ** internal/models *)

Module Todo.
Record t := mk {
  ID : Z;
  Title : string;
  Description : string;
  Completed : bool;
  CreatedAt : Time;
  UpdatedAt : Time;
  CompletedAt : option Time
}.
End Todo.

Module CreateTodoRequest.
Record t := mk {
  Title : string;
  Description : string
}.
Definition zero : t := mk "" "".
End CreateTodoRequest.

Module UpdateTodoRequest.
Record t := mk {
  Title : option string;
  Description : option string;
  Completed : option bool
}.
Definition zero : t := mk None None None.
End UpdateTodoRequest.

(** ** migrations/init.sql and the statements run against it *)

Module database.

(** The columns of [todos] other than the key.  [description] and
    [completed] carry no NOT NULL, [completed_at] is nullable by intent. *)
Record row := mkrow {
  title : string;
  description : option string;
  completed : option bool;
  created_at : Time;
  updated_at : Time;
  completed_at : option Time
}.

Record db := mkdb {
  todos : gmap Z row;
  todos_id_seq : Z       (* the value nextval hands out next *)
}.

(** What a round trip is told by the outside: [None] when the statement
    runs, [Some msg] when it is refused. *)
Definition fault := option string.

(** The state [init.sql] leaves behind when run at database time [now]:
    the table and its three sample rows. *)
Definition init_sql (now : Time) : db :=
  mkdb
    (<[1 := mkrow "Learn Go" (Some "Study Go programming language basics")
                  (Some true) now now (Some now)]>
     (<[2 := mkrow "Build a REST API"
                   (Some "Create a Todo API using Go and PostgreSQL")
                   (Some false) now now None]>
      (<[3 := mkrow "Learn Docker"
                    (Some "Learn how to containerize applications")
                    (Some false) now now None]> ∅)))
    4.

(** INSERT INTO todos (title, description, created_at, updated_at)
    VALUES ($1, $2, NOW(), NOW()) RETURNING ...
    [completed] takes its DEFAULT FALSE, [completed_at] stays NULL; the
    key comes from the sequence, which moves on even if the key is taken. *)
Definition insert_todo (d : db) (NOW : Time) (p1 p2 : string)
  : db * result (Z * row) :=
  let id := todos_id_seq d in
  let r := mkrow p1 (Some p2) (Some false) NOW NOW None in
  match todos d !! id with
  | Some _ => (mkdb (todos d) (id + 1), Err ErrUniqueViolation)
  | None => (mkdb (<[id := r]> (todos d)) (id + 1), Ok (id, r))
  end.

(** ORDER BY created_at DESC: the relation between a row and the one
    after it. *)
Definition created_at_desc (a b : Z * row) : Prop :=
  created_at (snd b) <= created_at (snd a).

Global Instance created_at_desc_dec : RelDecision created_at_desc.
Proof. intros a b. unfold created_at_desc. apply _. Defined.

(** SELECT ... FROM todos ORDER BY created_at DESC.  Rows with equal
    [created_at] come in the order the sort leaves them in. *)
Definition select_all (d : db) : list (Z * row) :=
  merge_sort created_at_desc (map_to_list (todos d)).

(** SELECT ... FROM todos WHERE id = $1 *)
Definition select_by_id (d : db) (p1 : Z) : option (Z * row) :=
  match todos d !! p1 with
  | Some r => Some (p1, r)
  | None => None
  end.

(** UPDATE todos SET title = $1, description = $2, completed = $3,
    completed_at = $4, updated_at = NOW() WHERE id = $5 RETURNING ... *)
Definition update_todo (d : db) (NOW : Time) (p1 p2 : string) (p3 : bool)
    (p4 : option Time) (p5 : Z) : db * option (Z * row) :=
  match todos d !! p5 with
  | None => (d, None)
  | Some old =>
      let r := mkrow p1 (Some p2) (Some p3) (created_at old) NOW p4 in
      (mkdb (<[p5 := r]> (todos d)) (todos_id_seq d), Some (p5, r))
  end.

(** DELETE FROM todos WHERE id = $1 *)
Definition delete_todo (d : db) (p1 : Z) : db :=
  mkdb (delete p1 (todos d)) (todos_id_seq d).

(** [Scan] of the seven selected columns into a [Todo]: a NULL in
    [description] or [completed] has no Go value to go to; a NULL
    [completed_at] is the zero [sql.NullTime], which the callers turn into
    a nil pointer. *)
Definition Scan (kr : Z * row) : result Todo.t :=
  let (id, r) := kr in
  match description r with
  | None => Err (ErrScanNull "description")
  | Some descr =>
      match completed r with
      | None => Err (ErrScanNull "completed")
      | Some c =>
          Ok (Todo.mk id (title r) descr c (created_at r) (updated_at r)
                (completed_at r))
      end
  end.

End database.

(** ** internal/repository *)

Module repository.
Import database.

(** What one call of a repository method reads from outside the table. *)
Record env := mkenv {
  fault1 : fault;     (* of the first round trip of the call *)
  fault2 : fault;     (* of the second one (the write of Update) *)
  time_Now : Time;    (* the application's clock, time.Now() *)
  NOW : Time          (* the database's clock, NOW() *)
}.

Definition Create (d : db) (e : env) (todo : CreateTodoRequest.t)
  : db * result Todo.t :=
  match fault1 e with
  | Some msg => (d, Err (ErrStorage msg))
  | None =>
      match insert_todo d (NOW e) (CreateTodoRequest.Title todo)
              (CreateTodoRequest.Description todo) with
      | (d', Err err) => (d', Err err)
      | (d', Ok kr) =>
          match Scan kr with
          | Err err => (d', Err err)
          | Ok newTodo => (d', Ok newTodo)
          end
      end
  end.

(** The loop of [GetAll] over the rows of the result set. *)
Fixpoint scan_rows (rows : list (Z * row)) (todos : slice Todo.t)
  : result (slice Todo.t) :=
  match rows with
  | [] => Ok todos
  | kr :: rest =>
      match Scan kr with
      | Err err => Err err
      | Ok todo => scan_rows rest (append todos todo)
      end
  end.

Definition GetAll (d : db) (e : env) : db * result (slice Todo.t) :=
  match fault1 e with
  | Some msg => (d, Err (ErrStorage msg))
  | None => (d, scan_rows (select_all d) None)
  end.

(** [Ok None] is the [(nil, nil)] of a todo that is not there. *)
Definition GetByID (d : db) (e : env) (id : Z)
  : db * result (option Todo.t) :=
  match fault1 e with
  | Some msg => (d, Err (ErrStorage msg))
  | None =>
      match select_by_id d id with
      | None => (d, Ok None)
      | Some kr =>
          match Scan kr with
          | Err err => (d, Err err)
          | Ok todo => (d, Ok (Some todo))
          end
      end
  end.

Definition Update (d : db) (e : env) (id : Z) (todo : UpdateTodoRequest.t)
  : db * result (option Todo.t) :=
  match GetByID d e id with
  | (d, Err err) => (d, Err err)
  | (d, Ok None) => (d, Ok None)
  | (d, Ok (Some currentTodo)) =>
      let title := default (Todo.Title currentTodo)
                     (UpdateTodoRequest.Title todo) in
      let description := default (Todo.Description currentTodo)
                           (UpdateTodoRequest.Description todo) in
      let completed := Todo.Completed currentTodo in
      let completedAt := Todo.CompletedAt currentTodo in
      let '(completed, completedAt) :=
        match UpdateTodoRequest.Completed todo with
        | Some c =>
            if negb (Bool.eqb c completed)
            then (c, if c then Some (time_Now e) else None)
            else (completed, completedAt)
        | None => (completed, completedAt)
        end in
      match fault2 e with
      | Some msg => (d, Err (ErrStorage msg))
      | None =>
          match update_todo d (NOW e) title description completed
                  completedAt id with
          | (d', None) => (d', Err ErrNoRows)
          | (d', Some kr) =>
              match Scan kr with
              | Err err => (d', Err err)
              | Ok updatedTodo => (d', Ok (Some updatedTodo))
              end
          end
      end
  end.

(** [None] is the nil error. *)
Definition Delete (d : db) (e : env) (id : Z) : db * option error :=
  match fault1 e with
  | Some msg => (d, Some (ErrStorage msg))
  | None => (delete_todo d id, None)
  end.

End repository.


(** ** strconv: [ParseInt(s, 10, 64)] *)

Module strconv.

Inductive NumError := ErrSyntax | ErrRange.

Definition maxUint64 : Z := 2 ^ 64 - 1.

(** The value of a byte in the loop of [ParseUint] when it is below the
    base 10; every other byte (a letter counts 10 or more) is a syntax
    error. *)
Definition digit (c : ascii) : option Z :=
  let n := Z.of_N (Ascii.N_of_ascii c) in
  if (48 <=? n) && (n <=? 57) then Some (n - 48) else None.

(** The loop of [ParseUint] over the bytes, [n] a uint64. *)
Fixpoint ParseUint_loop (s : string) (n : Z) : Z * option NumError :=
  match s with
  | EmptyString => (n, None)
  | String c s' =>
      match digit c with
      | None => (0, Some ErrSyntax)
      | Some d =>
          if maxUint64 / 10 + 1 <=? n then (maxUint64, Some ErrRange)
          else
            let n := (n * 10) mod 2 ^ 64 in
            let n1 := (n + d) mod 2 ^ 64 in
            if (n1 <? n) || (maxUint64 <? n1) then (maxUint64, Some ErrRange)
            else ParseUint_loop s' n1
      end
  end.

Definition ParseUint (s : string) : Z * option NumError :=
  match s with
  | EmptyString => (0, Some ErrSyntax)
  | _ => ParseUint_loop s 0
  end.

Definition ParseInt (s : string) : Z * option NumError :=
  match s with
  | EmptyString => (0, Some ErrSyntax)
  | String c rest =>
      let neg := bool_decide (c = "-"%char) in
      let s' := if bool_decide (c = "+"%char) || neg then rest else s in
      match ParseUint s' with
      | (_, Some ErrSyntax) => (0, Some ErrSyntax)
      | (un, _) =>
          let cutoff := 2 ^ 63 in
          if negb neg && (cutoff <=? un) then (cutoff - 1, Some ErrRange)
          else if neg && (cutoff <? un) then (- cutoff, Some ErrRange)
          else (if neg then - un else un, None)
      end
  end.

End strconv.

(** ** encoding/json, on parsed values *)

Module json.

(** A JSON value.  [Time] stands for the RFC 3339 string a [time.Time] is
    written as; only the encoder produces it. *)
Inductive value :=
  | Null
  | Bool (b : bool)
  | Number (n : Z)
  | String (s : string)
  | Time (t : Time)
  | Array (l : list value)
  | Object (fields : list (string * value)).

Definition lower (c : ascii) : ascii :=
  let n := Ascii.N_of_ascii c in
  if ((65 <=? n) && (n <=? 90))%N then Ascii.ascii_of_N (n + 32) else c.

Definition byte_is (n : N) (c : ascii) : bool :=
  (Ascii.N_of_ascii c =? n)%N.

(** A member name folded the way the decoder folds names to match them
    with fields.  A string is the bytes of its UTF-8: an ASCII letter goes
    to lower case, and so do the two characters outside ASCII whose simple
    case folding is an ASCII letter, U+017F (long s, bytes C5 BF), which
    folds to s, and U+212A (Kelvin sign, bytes E2 84 AA), which folds to k.
    Every other byte stays. *)
Fixpoint fold (s : string) : string :=
  match s with
  | EmptyString => EmptyString
  | String.String c s' =>
      match s' with
      | EmptyString => String.String (lower c) EmptyString
      | String.String c1 s1 =>
          if byte_is 197 c && byte_is 191 c1
          then String.String "s" (fold s1)
          else
            match s1 with
            | EmptyString => String.String (lower c) (fold s')
            | String.String c2 s2 =>
                if byte_is 226 c && byte_is 132 c1 && byte_is 170 c2
                then String.String "k" (fold s2)
                else String.String (lower c) (fold s')
            end
      end
  end.

(** A key selects the field whose name it folds to: the name in any letter
    case, with a long s for an s or a Kelvin sign for a k. *)
Definition key_is (name key : string) : bool :=
  bool_decide (fold key = name).

(** One member of the object stored into a [CreateTodoRequest]; [None] is
    the type error the decoder reports at the end. *)
Definition store_create (req : CreateTodoRequest.t) (kv : string * value)
  : option CreateTodoRequest.t :=
  let (k, v) := kv in
  let set_string (set : string → CreateTodoRequest.t) :=
    match v with
    | Null => Some req
    | String s => Some (set s)
    | _ => None
    end in
  if key_is "title" k then
    set_string (λ s, CreateTodoRequest.mk s (CreateTodoRequest.Description req))
  else if key_is "description" k then
    set_string (λ s, CreateTodoRequest.mk (CreateTodoRequest.Title req) s)
  else Some req.

(** One member of the object stored into an [UpdateTodoRequest]: null makes
    the pointer nil. *)
Definition store_update (req : UpdateTodoRequest.t) (kv : string * value)
  : option UpdateTodoRequest.t :=
  let (k, v) := kv in
  let '(UpdateTodoRequest.mk t d c) := req in
  if key_is "title" k then
    match v with
    | Null => Some (UpdateTodoRequest.mk None d c)
    | String s => Some (UpdateTodoRequest.mk (Some s) d c)
    | _ => None
    end
  else if key_is "description" k then
    match v with
    | Null => Some (UpdateTodoRequest.mk t None c)
    | String s => Some (UpdateTodoRequest.mk t (Some s) c)
    | _ => None
    end
  else if key_is "completed" k then
    match v with
    | Null => Some (UpdateTodoRequest.mk t d None)
    | Bool b => Some (UpdateTodoRequest.mk t d (Some b))
    | _ => None
    end
  else Some req.

(** Members are stored in order, a later one over an earlier one; a member
    of the wrong type is skipped and makes the whole decode an error. *)
Fixpoint store_all {A} (store : A → string * value → option A)
    (fields : list (string * value)) (req : A) (ok : bool) : option A :=
  match fields with
  | [] => if ok then Some req else None
  | kv :: rest =>
      match store req kv with
      | Some req' => store_all store rest req' ok
      | None => store_all store rest req false
      end
  end.

(** [json.NewDecoder(r.Body).Decode(&req)] on a zero [req]: a body that is
    not JSON ([None]) is an error, null leaves [req] alone, an object is
    stored member by member, any other value is a type error. *)
Definition Decode {A} (store : A → string * value → option A) (zero : A)
    (body : option value) : option A :=
  match body with
  | None => None
  | Some Null => Some zero
  | Some (Object fields) => store_all store fields zero true
  | Some _ => None
  end.

(** The encoding of a [*models.Todo]: [completed_at] has [omitempty]. *)
Definition of_Todo (t : Todo.t) : value :=
  Object ([("id", Number (Todo.ID t));
           ("title", String (Todo.Title t));
           ("description", String (Todo.Description t));
           ("completed", Bool (Todo.Completed t));
           ("created_at", Time (Todo.CreatedAt t));
           ("updated_at", Time (Todo.UpdatedAt t))]
          ++ match Todo.CompletedAt t with
             | Some at_ => [("completed_at", Time at_)]
             | None => []
             end).

(** The encoding of a [[]*models.Todo]: a nil slice is written as null. *)
Definition of_Todos (ts : slice Todo.t) : value :=
  match ts with
  | None => Null
  | Some l => Array (of_Todo <$> l)
  end.

End json.

(** ** net/http, as far as the handlers use it *)

Module http.

Inductive body :=
  | NoBody
  | Text (msg : string)          (* a line of plain text *)
  | ErrorText (err : error)      (* the line [err.Error()] *)
  | JSON (v : json.value).

Record Request := mkRequest {
  Method : string;
  URL_Path : string;
  Body : option json.value       (* [None]: the body is not JSON *)
}.

Record Response := mkResponse {
  Status : Z;
  ContentType : string;
  Written : body
}.

Definition StatusOK : Z := 200.
Definition StatusCreated : Z := 201.
Definition StatusNoContent : Z := 204.
Definition StatusMovedPermanently : Z := 301.
Definition StatusBadRequest : Z := 400.
Definition StatusNotFound : Z := 404.
Definition StatusMethodNotAllowed : Z := 405.
Definition StatusInternalServerError : Z := 500.

Definition Error (b : body) (code : Z) : Response :=
  mkResponse code "text/plain; charset=utf-8" b.

End http.

(** ** gorilla/mux v1.8.0, as far as the router uses it *)

Module mux.

(** The variables of the matched route, [mux.Vars(r)]; a missing key reads
    as the empty string. *)
Definition Vars (vars : gmap string string) (key : string) : string :=
  default EmptyString (vars !! key).

(** A path template: literal text and variables of the form
    [{name:[0-9]+}]. *)
Inductive part :=
  | Lit (text : string)
  | Digits (name : string).

Record Route (H : Type) := mkRoute {
  template : list part;
  methods : list string;
  handler : H
}.
Arguments mkRoute {H} _ _ _.
Arguments template {H} _.
Arguments methods {H} _.
Arguments handler {H} _.

Fixpoint strip_prefix (pre s : string) : option string :=
  match pre, s with
  | EmptyString, _ => Some s
  | String a pre', String b s' =>
      if bool_decide (a = b) then strip_prefix pre' s' else None
  | String _ _, EmptyString => None
  end.

(** The longest run of decimal digits at the head of [s], and the rest. *)
Fixpoint span_digits (s : string) : string * string :=
  match s with
  | EmptyString => (EmptyString, EmptyString)
  | String c s' =>
      match strconv.digit c with
      | Some _ => let (ds, rest) := span_digits s' in (String c ds, rest)
      | None => (EmptyString, s)
      end
  end.

(** The template is anchored at both ends of the path. *)
Fixpoint match_template (tpl : list part) (path : string)
  : option (gmap string string) :=
  match tpl with
  | [] => if bool_decide (path = EmptyString) then Some ∅ else None
  | Lit text :: tpl' =>
      rest ← strip_prefix text path; match_template tpl' rest
  | Digits name :: tpl' =>
      let (ds, rest) := span_digits path in
      if bool_decide (ds = EmptyString) then None
      else vars ← match_template tpl' rest; Some (<[name := ds]> vars)
  end.

Inductive RouteMatch (H : Type) :=
  | Matched (h : H) (vars : gmap string string)
  | ErrMethodMismatch
  | ErrNotFound.
Arguments Matched {H} _ _.
Arguments ErrMethodMismatch {H}.
Arguments ErrNotFound {H}.

(** [Router.Match]: the first route whose path and method both match; a
    route whose path matches under another method is remembered. *)
Fixpoint Match {H} (routes : list (Route H)) (method path : string)
    (mismatch : bool) : RouteMatch H :=
  match routes with
  | [] => if mismatch then ErrMethodMismatch else ErrNotFound
  | r :: routes' =>
      match match_template (template r) path with
      | None => Match routes' method path mismatch
      | Some vars =>
          if bool_decide (method ∈ methods r) then Matched (handler r) vars
          else Match routes' method path true
      end
  end.

(** [r.PathPrefix(prefix).Subrouter()]: the routes registered on it carry
    the prefix in front of their template. *)
Definition Subrouter {H} (prefix : string) (routes : list (Route H))
  : list (Route H) :=
  (λ r, mkRoute (Lit prefix :: template r) (methods r) (handler r)) <$> routes.

(** The elements of a path between its slashes. *)
Fixpoint split_slash (s : string) : list string :=
  match s with
  | EmptyString => [EmptyString]
  | String c s' =>
      if bool_decide (c = "/"%char) then EmptyString :: split_slash s'
      else match split_slash s' with
           | [] => [String c EmptyString]
           | x :: xs => String c x :: xs
           end
  end.

(** [path.Clean] of a rooted path, element by element: empty and [.]
    elements go, [..] takes the element before it along. *)
Definition clean_step (kept : list string) (elem : string) : list string :=
  if bool_decide (elem = EmptyString) || bool_decide (elem = ".") then kept
  else if bool_decide (elem = "..") then tail kept
  else elem :: kept.

Definition path_Clean (p : string) : string :=
  match reverse (foldl clean_step [] (split_slash p)) with
  | [] => "/"
  | elems => foldr (λ elem acc, String "/" (String.app elem acc))
                   EmptyString elems
  end.

Definition ends_with_slash (p : string) : bool :=
  bool_decide (last (split_slash p) = Some EmptyString).

Definition cleanPath (p : string) : string :=
  if bool_decide (p = EmptyString) then "/"
  else
    let p := match p with
             | String "/" _ => p
             | _ => String "/" p
             end in
    let np := path_Clean p in
    if ends_with_slash p && negb (bool_decide (np = "/"))
    then String.app np "/" else np.

End mux.

(** ** internal/handlers *)

Module handlers.
Import database repository http.

(** A handler, given the table, what the call reads from outside, the
    variables of the route and the request. *)
Definition HandlerFunc : Type :=
  db → env → gmap string string → Request → db * Response.

Definition respondWithJSON (status : Z) (data : json.value) : Response :=
  mkResponse status "application/json" (JSON data).

Definition GetAllTodos : HandlerFunc := λ d e vars r,
  match GetAll d e with
  | (d, Err err) => (d, Error (ErrorText err) StatusInternalServerError)
  | (d, Ok todos) => (d, respondWithJSON StatusOK (json.of_Todos todos))
  end.

Definition GetTodo : HandlerFunc := λ d e vars r,
  match strconv.ParseInt (mux.Vars vars "id") with
  | (_, Some _) => (d, Error (Text "Invalid todo ID") StatusBadRequest)
  | (id, None) =>
      match GetByID d e id with
      | (d, Err err) => (d, Error (ErrorText err) StatusInternalServerError)
      | (d, Ok None) => (d, Error (Text "Todo not found") StatusNotFound)
      | (d, Ok (Some todo)) =>
          (d, respondWithJSON StatusOK (json.of_Todo todo))
      end
  end.

Definition CreateTodo : HandlerFunc := λ d e vars r,
  match json.Decode json.store_create CreateTodoRequest.zero (Body r) with
  | None => (d, Error (Text "Invalid request payload") StatusBadRequest)
  | Some req =>
      if bool_decide (CreateTodoRequest.Title req = EmptyString)
      then (d, Error (Text "Title is required") StatusBadRequest)
      else
        match Create d e req with
        | (d, Err err) =>
            (d, Error (ErrorText err) StatusInternalServerError)
        | (d, Ok todo) =>
            (d, respondWithJSON StatusCreated (json.of_Todo todo))
        end
  end.

Definition UpdateTodo : HandlerFunc := λ d e vars r,
  match strconv.ParseInt (mux.Vars vars "id") with
  | (_, Some _) => (d, Error (Text "Invalid todo ID") StatusBadRequest)
  | (id, None) =>
      match json.Decode json.store_update UpdateTodoRequest.zero (Body r) with
      | None => (d, Error (Text "Invalid request payload") StatusBadRequest)
      | Some req =>
          match Update d e id req with
          | (d, Err err) =>
              (d, Error (ErrorText err) StatusInternalServerError)
          | (d, Ok None) => (d, Error (Text "Todo not found") StatusNotFound)
          | (d, Ok (Some todo)) =>
              (d, respondWithJSON StatusOK (json.of_Todo todo))
          end
      end
  end.

Definition DeleteTodo : HandlerFunc := λ d e vars r,
  match strconv.ParseInt (mux.Vars vars "id") with
  | (_, Some _) => (d, Error (Text "Invalid todo ID") StatusBadRequest)
  | (id, None) =>
      match Delete d e id with
      | (d, Some err) =>
          (d, Error (ErrorText err) StatusInternalServerError)
      | (d, None) => (d, mkResponse StatusNoContent EmptyString NoBody)
      end
  end.

End handlers.

(** ** internal/router *)

Module router.
Import database repository http.

Definition HandleFunc (tpl : list mux.part) (f : handlers.HandlerFunc)
    (method : string) : mux.Route handlers.HandlerFunc :=
  mux.mkRoute tpl [method] f.

Definition SetupRouter : list (mux.Route handlers.HandlerFunc) :=
  mux.Subrouter "/api/v1"
    [ HandleFunc [mux.Lit "/todos"] handlers.GetAllTodos "GET";
      HandleFunc [mux.Lit "/todos/"; mux.Digits "id"] handlers.GetTodo "GET";
      HandleFunc [mux.Lit "/todos"] handlers.CreateTodo "POST";
      HandleFunc [mux.Lit "/todos/"; mux.Digits "id"] handlers.UpdateTodo "PUT";
      HandleFunc [mux.Lit "/todos/"; mux.Digits "id"] handlers.DeleteTodo
        "DELETE" ].

(** [Router.ServeHTTP]: a path that is not clean is redirected to its clean
    form; otherwise the matched handler runs, and without one the router
    answers itself. *)
Definition ServeHTTP (d : db) (e : env) (r : Request) : db * Response :=
  if bool_decide (mux.cleanPath (URL_Path r) = URL_Path r) then
    match mux.Match SetupRouter (Method r) (URL_Path r) false with
    | mux.Matched h vars => h d e vars r
    | mux.ErrMethodMismatch =>
        (d, mkResponse StatusMethodNotAllowed EmptyString NoBody)
    | mux.ErrNotFound =>
        (d, Error (Text "404 page not found") StatusNotFound)
    end
  else (d, mkResponse StatusMovedPermanently EmptyString NoBody).

End router.

(** ** internal/config *)

Module config.

Module DBConfig.
Record t := mk {
  Host : string;
  Port : string;
  User : string;
  Password : string;
  DBName : string
}.
End DBConfig.

(** The handle [sql.Open] returns, known by the data source name it was
    opened with. *)
Record sql_DB := mksql_DB { dataSourceName : string }.

Module Config.
Record t := mk {
  Port : string;
  DB : sql_DB;
  DBConfig : DBConfig.t
}.
End Config.

(** [os.Getenv]: a variable that is not set reads as the empty string. *)
Definition Getenv (env : gmap string string) (key : string) : string :=
  default EmptyString (env !! key).

(** [godotenv.Load()]: the variables of the .env file are set unless the
    environment already has them; [None] is a file that cannot be read,
    which [Load] does not look at. *)
Definition godotenv_Load (environ : gmap string string)
    (dotenv : option (gmap string string)) : gmap string string :=
  match dotenv with
  | Some file => environ ∪ file
  | None => environ
  end.

Definition getEnv (env : gmap string string) (key defaultValue : string)
  : string :=
  let value := Getenv env key in
  if bool_decide (value = EmptyString) then defaultValue else value.

(** [open_err] and [ping_err] are what [sql.Open] and [db.Ping] report. *)
Definition connectDB (open_err ping_err : option error) (config : DBConfig.t)
  : result sql_DB :=
  let psqlInfo :=
    String.app "host=" (String.app (DBConfig.Host config)
    (String.app " port=" (String.app (DBConfig.Port config)
    (String.app " user=" (String.app (DBConfig.User config)
    (String.app " password=" (String.app (DBConfig.Password config)
    (String.app " dbname=" (String.app (DBConfig.DBName config)
    " sslmode=disable"))))))))) in
  match open_err with
  | Some err => Err err
  | None =>
      match ping_err with
      | Some err => Err err
      | None => Ok (mksql_DB psqlInfo)
      end
  end.

Definition Load (environ : gmap string string)
    (dotenv : option (gmap string string)) (open_err ping_err : option error)
  : result Config.t :=
  let env := godotenv_Load environ dotenv in
  let port := Getenv env "PORT" in
  let port := if bool_decide (port = EmptyString) then "8080" else port in
  let dbConfig :=
    DBConfig.mk (getEnv env "DB_HOST" "localhost")
      (getEnv env "DB_PORT" "5432")
      (getEnv env "DB_USER" "postgres")
      (getEnv env "DB_PASSWORD" "postgres")
      (getEnv env "DB_NAME" "todo_db") in
  match connectDB open_err ping_err dbConfig with
  | Err err => Err err
  | Ok db => Ok (Config.mk port db dbConfig)
  end.

End config.

(** ** Vocabulary of the statements *)

Import database repository http.

(** The calls that change the table. *)
Inductive call :=
  | CallCreate (req : CreateTodoRequest.t)
  | CallUpdate (id : Z) (req : UpdateTodoRequest.t)
  | CallDelete (id : Z).

Definition run (c : call) (d : db) (e : env) : db :=
  match c with
  | CallCreate req => fst (Create d e req)
  | CallUpdate id req => fst (Update d e id req)
  | CallDelete id => fst (Delete d e id)
  end.

(** The tables the application can be looking at: what [init.sql] set up,
    changed by any number of repository calls under any faults and clock
    readings. *)
Inductive reachable : db → Prop :=
  | reach_init now : reachable (init_sql now)
  | reach_call d c e : reachable d → reachable (run c d e).

(** The same, when the application and the database read one clock that
    never runs backwards; the index bounds every reading made so far.  In
    [Update] the application reads the clock before the write does. *)
Inductive one_clock : Time → db → Prop :=
  | one_clock_init now : one_clock now (init_sql now)
  | one_clock_call now d c e :
      one_clock now d → now <= time_Now e → time_Now e <= NOW e →
      one_clock (NOW e) (run c d e).

(** The completion invariant on a row and on a todo. *)
Definition row_complete (r : row) : Prop :=
  is_Some (completed_at r) ↔ completed r = Some true.

Definition todo_complete (t : Todo.t) : Prop :=
  is_Some (Todo.CompletedAt t) ↔ Todo.Completed t = true.

(** What holds of every row of a reachable table: the key was handed out by
    the sequence, no column the application scans is NULL, and the
    completion invariant. *)
Definition row_ok (seq : Z) (id : Z) (r : row) : Prop :=
  id < seq ∧ is_Some (description r) ∧ is_Some (completed r) ∧ row_complete r.

Definition db_ok (d : db) : Prop :=
  map_Forall (row_ok (todos_id_seq d)) (todos d).

(** No timestamp of the table is later than [now]. *)
Definition row_by (now : Time) (id : Z) (r : row) : Prop :=
  created_at r <= now ∧ updated_at r <= now.

Definition db_by (now : Time) (d : db) : Prop :=
  map_Forall (row_by now) (todos d).

(** Decimal strings and their value. *)
Fixpoint all_digits (s : string) : bool :=
  match s with
  | EmptyString => true
  | String c s' => bool_decide (is_Some (strconv.digit c)) && all_digits s'
  end.

Definition numeric (s : string) : bool :=
  negb (bool_decide (s = EmptyString)) && all_digits s.

Fixpoint decimal_from (n : Z) (s : string) : Z :=
  match s with
  | EmptyString => n
  | String c s' => decimal_from (n * 10 + default 0 (strconv.digit c)) s'
  end.

Definition decimal (s : string) : Z := decimal_from 0 s.

(** The update as the specification words it: a provided title or
    description replaces the current one; a provided [completed] that differs
    from the current one flips it and stamps or clears [completed_at]; what
    is not provided stays. *)
Definition reconciled_completion (now : Time) (cur : Todo.t)
    (req : UpdateTodoRequest.t) : bool * option Time :=
  match UpdateTodoRequest.Completed req with
  | Some c =>
      if bool_decide (c = Todo.Completed cur)
      then (Todo.Completed cur, Todo.CompletedAt cur)
      else if Todo.Completed cur then (false, None) else (true, Some now)
  | None => (Todo.Completed cur, Todo.CompletedAt cur)
  end.

Definition reconciled (e : env) (cur : Todo.t) (req : UpdateTodoRequest.t)
  : Todo.t :=
  Todo.mk (Todo.ID cur)
    (default (Todo.Title cur) (UpdateTodoRequest.Title req))
    (default (Todo.Description cur) (UpdateTodoRequest.Description req))
    (fst (reconciled_completion (time_Now e) cur req))
    (Todo.CreatedAt cur)
    (NOW e)
    (snd (reconciled_completion (time_Now e) cur req)).

(** The row a todo is scanned from. *)
Definition row_of (t : Todo.t) : row :=
  mkrow (Todo.Title t) (Some (Todo.Description t)) (Some (Todo.Completed t))
    (Todo.CreatedAt t) (Todo.UpdatedAt t) (Todo.CompletedAt t).

(** Sample inputs. *)
Definition no_fault (time_Now NOW : Time) : env := mkenv None None time_Now NOW.

Definition id_var (seg : string) : gmap string string := {["id" := seg]}.

(** The member name "description" spelt with a long s (U+017F) for its
    s. *)
Definition long_s_description : string :=
  String.app "de"
    (String (ascii_of_N 197) (String (ascii_of_N 191) "cription")).

(** A table with one row put there by hand, its description left NULL. *)
Definition by_hand : db :=
  mkdb (<[1 := mkrow "by hand" None (Some false) 7 7 None]> ∅) 2.

Definition todo_path (seg : string) : string :=
  String.app "/api/v1/todos/" seg.

(** The tables a table can become by further calls. *)
Inductive runs_to : db → db → Prop :=
  | runs_refl d : runs_to d d
  | runs_step d d' c e : runs_to d d' → runs_to d (run c d' e).

(** The first member of a JSON object under a key. *)
Fixpoint assoc (key : string) (fields : list (string * json.value))
  : option json.value :=
  match fields with
  | [] => None
  | (k, v) :: rest => if bool_decide (k = key) then Some v else assoc key rest
  end.

Definition member (key : string) (v : json.value) : option json.value :=
  match v with
  | json.Object fields => assoc key fields
  | _ => None
  end.

(** A todo with another [updated_at]. *)
Definition touched (now : Time) (t : Todo.t) : Todo.t :=
  Todo.mk (Todo.ID t) (Todo.Title t) (Todo.Description t) (Todo.Completed t)
    (Todo.CreatedAt t) now (Todo.CompletedAt t).

(** A member of a request object that names a field of the update request
    but carries a value of another type. *)
Definition ill_typed (kv : string * json.value) : bool :=
  let (k, v) := kv in
  let is_string :=
    match v with json.Null | json.String _ => true | _ => false end in
  let is_bool :=
    match v with json.Null | json.Bool _ => true | _ => false end in
  (json.key_is "title" k && negb is_string)
  || (json.key_is "description" k && negb is_string)
  || (json.key_is "completed" k && negb is_bool).

(** The setting a variable has at start-up: what the environment of the
    process gives it, else what the .env file gives it, else the default; an
    empty value counts as none. *)
Definition setting (environ : gmap string string)
    (dotenv : option (gmap string string)) (key defaultValue : string)
  : string :=
  match environ !! key with
  | Some v => if bool_decide (v = EmptyString) then defaultValue else v
  | None =>
      match dotenv ≫= (λ file, file !! key) with
      | Some v => if bool_decide (v = EmptyString) then defaultValue else v
      | None => defaultValue
      end
  end.

(** * Properties *)

(** ** The statements of the database *)

Lemma Scan_Ok id r t :
  Scan (id, r) = Ok t →
  description r = Some (Todo.Description t) ∧
  completed r = Some (Todo.Completed t) ∧
  t = Todo.mk id (title r) (Todo.Description t) (Todo.Completed t)
        (created_at r) (updated_at r) (completed_at r).
Proof.
  unfold Scan. destruct (description r), (completed r); intros [= <-]; auto.
Qed.

Lemma Scan_row id p1 p2 p3 c u p4 :
  Scan (id, mkrow p1 (Some p2) (Some p3) c u p4) = Ok (Todo.mk id p1 p2 p3 c u p4).
Proof. reflexivity. Qed.

Lemma GetByID_found d e id r t :
  fault1 e = None → todos d !! id = Some r → Scan (id, r) = Ok t →
  GetByID d e id = (d, Ok (Some t)).
Proof.
  intros He Hr Ht. unfold GetByID, select_by_id. by rewrite He, Hr, Ht.
Qed.

Lemma GetByID_missing d e id :
  fault1 e = None → todos d !! id = None → GetByID d e id = (d, Ok None).
Proof.
  intros He Hr. unfold GetByID, select_by_id. by rewrite He, Hr.
Qed.

Lemma GetByID_Some d e id t :
  GetByID d e id = (d, Ok (Some t)) →
  ∃ r, todos d !! id = Some r ∧ Scan (id, r) = Ok t.
Proof.
  unfold GetByID, select_by_id. destruct (fault1 e); [discriminate|].
  destruct (todos d !! id) as [r|]; [|discriminate].
  destruct (Scan (id, r)) eqn:Hs; [|discriminate]. intros [= <-]. eauto.
Qed.

Lemma Create_Ok d e req d' t :
  Create d e req = (d', Ok t) →
  fault1 e = None ∧ todos d !! todos_id_seq d = None ∧
  t = Todo.mk (todos_id_seq d) (CreateTodoRequest.Title req)
        (CreateTodoRequest.Description req) false (NOW e) (NOW e) None ∧
  d' = mkdb (<[todos_id_seq d :=
                 mkrow (CreateTodoRequest.Title req)
                   (Some (CreateTodoRequest.Description req)) (Some false)
                   (NOW e) (NOW e) None]> (todos d))
            (todos_id_seq d + 1).
Proof.
  unfold Create, insert_todo. destruct (fault1 e); [done|].
  destruct (todos d !! todos_id_seq d); [done|]. simpl.
  intros [= <- <-]. auto.
Qed.

Lemma Create_fresh d e req :
  fault1 e = None → todos d !! todos_id_seq d = None →
  ∃ d' t, Create d e req = (d', Ok t).
Proof.
  intros He Hk. unfold Create, insert_todo. rewrite He, Hk. simpl. eauto.
Qed.

Lemma Scan_row_of id t : Todo.ID t = id → Scan (id, row_of t) = Ok t.
Proof. intros <-. by destruct t. Qed.

Lemma Scan_ID id r t : Scan (id, r) = Ok t → Todo.ID t = id.
Proof. intros (_ & _ & ->)%Scan_Ok. done. Qed.

Lemma Update_found d e id req r cur :
  fault1 e = None → fault2 e = None →
  todos d !! id = Some r → Scan (id, r) = Ok cur →
  Update d e id req =
    (mkdb (<[id := row_of (reconciled e cur req)]> (todos d)) (todos_id_seq d),
     Ok (Some (reconciled e cur req))).
Proof.
  intros He1 He2 Hr Hs. unfold Update.
  rewrite (GetByID_found d e id r cur He1 Hr Hs).
  pose proof (Scan_Ok _ _ _ Hs) as (_ & _ & Hcur).
  unfold reconciled, reconciled_completion, update_todo, row_of.
  rewrite He2, Hr, Hcur. simpl.
  destruct (UpdateTodoRequest.Completed req) as [[]|],
    (Todo.Completed cur); reflexivity.
Qed.

Lemma Update_missing d e id req :
  fault1 e = None → todos d !! id = None → Update d e id req = (d, Ok None).
Proof.
  intros He Hr. unfold Update. by rewrite (GetByID_missing d e id He Hr).
Qed.

(** The outcomes of [Update], by what it read. *)
Lemma Update_cases d e id req :
  (∃ res, Update d e id req = (d, res) ∧ ∀ t, res ≠ Ok (Some t)) ∨
  (∃ r cur, fault1 e = None ∧ fault2 e = None ∧ todos d !! id = Some r ∧
            Scan (id, r) = Ok cur ∧
            Update d e id req =
              (mkdb (<[id := row_of (reconciled e cur req)]> (todos d))
                    (todos_id_seq d),
               Ok (Some (reconciled e cur req)))).
Proof.
  destruct (fault1 e) as [msg|] eqn:He1.
  { left. exists (Err (ErrStorage msg)). unfold Update, GetByID.
    by rewrite He1. }
  destruct (todos d !! id) as [r|] eqn:Hr.
  2: { left. exists (Ok None). by rewrite Update_missing. }
  destruct (Scan (id, r)) as [cur|err] eqn:Hs.
  2: { left. exists (Err err). unfold Update, GetByID, select_by_id.
       by rewrite He1, Hr, Hs. }
  destruct (fault2 e) as [msg|] eqn:He2.
  { left. exists (Err (ErrStorage msg)). unfold Update.
    rewrite (GetByID_found d e id r cur He1 Hr Hs), He2.
    split; [|done]. by destruct (UpdateTodoRequest.Completed req) as [[]|],
      (Todo.Completed cur). }
  right. exists r, cur. by rewrite (Update_found d e id req r cur).
Qed.

Lemma Update_Some d e id req d' t :
  Update d e id req = (d', Ok (Some t)) →
  ∃ r cur, fault1 e = None ∧ fault2 e = None ∧ todos d !! id = Some r ∧
           Scan (id, r) = Ok cur ∧ t = reconciled e cur req ∧
           d' = mkdb (<[id := row_of t]> (todos d)) (todos_id_seq d).
Proof.
  destruct (Update_cases d e id req) as [(res & -> & Hres)|
    (r & cur & He1 & He2 & Hr & Hs & ->)].
  - intros [= _ ->]. by destruct (Hres t).
  - intros [= <- <-]. by exists r, cur.
Qed.

(** ** Invariants of the reachable tables *)

(** How a call leaves the table. *)
Lemma run_cases c d e :
  run c d e = d ∨
  run c d e = mkdb (todos d) (todos_id_seq d + 1) ∨
  (∃ req, todos d !! todos_id_seq d = None ∧
          run c d e =
            mkdb (<[todos_id_seq d :=
                      mkrow (CreateTodoRequest.Title req)
                        (Some (CreateTodoRequest.Description req))
                        (Some false) (NOW e) (NOW e) None]> (todos d))
                 (todos_id_seq d + 1)) ∨
  (∃ id r cur req, todos d !! id = Some r ∧ Scan (id, r) = Ok cur ∧
          run c d e =
            mkdb (<[id := row_of (reconciled e cur req)]> (todos d))
                 (todos_id_seq d)) ∨
  (∃ id, run c d e = mkdb (delete id (todos d)) (todos_id_seq d)).
Proof.
  destruct c as [req|id req|id]; simpl.
  - unfold Create, insert_todo. destruct (fault1 e); [by left|].
    destruct (todos d !! todos_id_seq d) eqn:Hk; simpl.
    + right; by left.
    + right; right; left. by exists req.
  - destruct (Update_cases d e id req) as [(res & -> & _)|
      (r & cur & _ & _ & Hr & Hs & ->)]; [by left|].
    right; right; right; left. by exists id, r, cur, req.
  - unfold Delete, delete_todo. destruct (fault1 e); [by left|].
    right; right; right; right. by exists id.
Qed.

Lemma reconciled_complete e cur req :
  todo_complete cur → todo_complete (reconciled e cur req).
Proof.
  unfold todo_complete, reconciled, reconciled_completion. simpl.
  intros Hc. destruct (UpdateTodoRequest.Completed req) as [c|]; [|done].
  case_bool_decide; [done|].
  destruct (Todo.Completed cur); simpl; split; intros H';
    try done; by inversion H'.
Qed.

Lemma Scan_complete id r t :
  Scan (id, r) = Ok t → row_complete r → todo_complete t.
Proof.
  intros (_ & Hc & ->)%Scan_Ok. unfold row_complete, todo_complete. simpl.
  rewrite Hc. intros ->. split; [by intros [= ->]|by intros ->].
Qed.

Lemma row_of_complete t : todo_complete t → row_complete (row_of t).
Proof.
  unfold row_complete, todo_complete, row_of. simpl. intros ->.
  split; [by intros ->|by intros [= ->]].
Qed.

Lemma init_sql_ok now : db_ok (init_sql now).
Proof.
  unfold db_ok, init_sql, row_ok, row_complete. simpl.
  repeat apply map_Forall_insert_2; try apply map_Forall_empty; simpl;
    repeat split; eauto; try lia; try done; by intros [? [=]].
Qed.

Lemma run_ok c d e : db_ok d → db_ok (run c d e).
Proof.
  unfold db_ok. intros Hd.
  destruct (run_cases c d e) as [->|[->|[(req & Hk & ->)|
    [(id & r & cur & req & Hr & Hs & ->)|(id & ->)]]]]; simpl.
  - done.
  - eapply map_Forall_impl; [exact Hd|]. unfold row_ok. intros ? ? [? ?]; split; [lia|done].
  - apply map_Forall_insert_2.
    + unfold row_ok, row_complete. simpl. repeat split; eauto; try lia; try done.
    + eapply map_Forall_impl; [exact Hd|]. unfold row_ok.
      intros ? ? [? ?]; split; [lia|done].
  - apply map_Forall_insert_2; [|done].
    destruct (Hd id r Hr) as (Hlt & _ & _ & Hc).
    unfold row_ok. repeat split; simpl; eauto;
      apply (row_of_complete (reconciled e cur req)), reconciled_complete;
      by eapply Scan_complete.
  - by apply map_Forall_delete.
Qed.

Lemma reachable_ok d : reachable d → db_ok d.
Proof. induction 1; [apply init_sql_ok|by apply run_ok]. Qed.

Lemma db_ok_fresh d : db_ok d → todos d !! todos_id_seq d = None.
Proof.
  intros Hd. destruct (todos d !! todos_id_seq d) as [r|] eqn:Hk; [|done].
  destruct (Hd _ _ Hk) as [Hlt _]. lia.
Qed.

Lemma db_ok_Scan d id r :
  db_ok d → todos d !! id = Some r → ∃ t, Scan (id, r) = Ok t.
Proof.
  intros Hd Hr. destruct (Hd _ _ Hr) as (_ & [x Hx] & [c Hc] & _).
  unfold Scan. rewrite Hx, Hc. eauto.
Qed.

Lemma reachable_fresh d : reachable d → todos d !! todos_id_seq d = None.
Proof. intros Hd. by apply db_ok_fresh, reachable_ok. Qed.

Lemma init_sql_by now : db_by now (init_sql now).
Proof.
  unfold db_by, init_sql, row_by. simpl.
  repeat apply map_Forall_insert_2; try apply map_Forall_empty; simpl; lia.
Qed.

Lemma db_by_mono now now' d : now <= now' → db_by now d → db_by now' d.
Proof.
  intros Hle Hd. eapply map_Forall_impl; [exact Hd|].
  unfold row_by. intros ? ? [? ?]. lia.
Qed.

Lemma run_by now c d e :
  db_by now d → now <= NOW e → db_by (NOW e) (run c d e).
Proof.
  intros Hd Hle. pose proof (db_by_mono _ _ _ Hle Hd) as Hd'.
  unfold db_by in *.
  destruct (run_cases c d e) as [->|[->|[(req & Hk & ->)|
    [(id & r & cur & req & Hr & Hs & ->)|(id & ->)]]]]; simpl; try done.
  - apply map_Forall_insert_2; [|done]. unfold row_by. simpl. lia.
  - apply map_Forall_insert_2; [|done].
    destruct (Hd' id r Hr) as [Hc _].
    apply Scan_Ok in Hs as (_ & _ & ->). unfold row_by. simpl. lia.
  - by apply map_Forall_delete.
Qed.

Lemma one_clock_by now d : one_clock now d → db_by now d.
Proof.
  induction 1 as [now|now d c e _ IH H1 H2]; [apply init_sql_by|].
  apply (run_by now); [done|lia].
Qed.

Lemma one_clock_reachable now d : one_clock now d → reachable d.
Proof. induction 1; by constructor. Qed.

(** ** Create *)

(** C3. A call of Create with a non-empty title on a table the application
    can be looking at returns a todo unless the round trip is refused; the
    todo it returns is not completed, has no completion time, has
    created_at equal to updated_at (the database clock of the insert), carries
    the title and description of the request and the id the sequence handed
    out, and is the row now stored under that id. *)
Theorem Create_returns_new_todo d e req :
  CreateTodoRequest.Title req ≠ EmptyString →
  (reachable d → fault1 e = None → ∃ d' t, Create d e req = (d', Ok t)) ∧
  (∀ d' t, Create d e req = (d', Ok t) →
     Todo.Completed t = false ∧ Todo.CompletedAt t = None ∧
     Todo.CreatedAt t = Todo.UpdatedAt t ∧ Todo.CreatedAt t = NOW e ∧
     Todo.ID t = todos_id_seq d ∧
     Todo.Title t = CreateTodoRequest.Title req ∧
     Todo.Description t = CreateTodoRequest.Description req ∧
     todos d !! Todo.ID t = None ∧
     todos d' !! Todo.ID t = Some (row_of t)).
Proof.
  intros _. split.
  - intros Hd He. by apply Create_fresh, reachable_fresh.
  - intros d' t (_ & Hk & -> & ->)%Create_Ok. simpl.
    repeat split; try done. apply lookup_insert_eq.
Qed.

Lemma Create_returns_new_todo_witness :
  CreateTodoRequest.Title (CreateTodoRequest.mk "Buy groceries" "Milk, eggs")
    ≠ EmptyString ∧
  ∃ d' t,
    Create (init_sql 7) (no_fault 8 9)
      (CreateTodoRequest.mk "Buy groceries" "Milk, eggs") = (d', Ok t) ∧
    Todo.Completed t = false ∧ Todo.CompletedAt t = None ∧
    Todo.CreatedAt t = Todo.UpdatedAt t ∧ Todo.ID t = 4.
Proof.
  assert (CreateTodoRequest.Title
            (CreateTodoRequest.mk "Buy groceries" "Milk, eggs")
          ≠ EmptyString) as Hne by discriminate.
  split; [exact Hne|].
  destruct (Create_returns_new_todo (init_sql 7) (no_fault 8 9) _ Hne)
    as [Hex Hprop].
  destruct (Hex (reach_init 7) eq_refl) as (d' & t & Hc).
  exists d', t. destruct (Hprop d' t Hc) as (? & ? & ? & ? & ? & _).
  repeat split; assumption.
Defined.

(** C8. After a Create that returned a todo, and with nothing changing the
    table in between, GetByID on the id of that todo returns the very same
    todo, field by field, unless its round trip is refused. *)
Theorem Create_then_GetByID d e req d' t :
  CreateTodoRequest.Title req ≠ EmptyString →
  Create d e req = (d', Ok t) →
  ∀ e', fault1 e' = None → GetByID d' e' (Todo.ID t) = (d', Ok (Some t)).
Proof.
  intros _ (_ & _ & -> & ->)%Create_Ok e' He'. simpl.
  eapply GetByID_found; [done|simpl; apply lookup_insert_eq|reflexivity].
Qed.

Lemma Create_then_GetByID_witness :
  ∃ d' t,
    CreateTodoRequest.Title (CreateTodoRequest.mk "Buy groceries" "Milk, eggs")
      ≠ EmptyString ∧
    Create (init_sql 7) (no_fault 8 9)
      (CreateTodoRequest.mk "Buy groceries" "Milk, eggs") = (d', Ok t) ∧
    fault1 (no_fault 10 11) = None ∧
    GetByID d' (no_fault 10 11) (Todo.ID t) = (d', Ok (Some t)).
Proof.
  eexists _, _.
  assert (CreateTodoRequest.Title
            (CreateTodoRequest.mk "Buy groceries" "Milk, eggs")
          ≠ EmptyString) as Hne by discriminate.
  assert (Create (init_sql 7) (no_fault 8 9)
            (CreateTodoRequest.mk "Buy groceries" "Milk, eggs")
          = (_, Ok _)) as Hc by (vm_compute; reflexivity).
  split; [exact Hne|]. split; [exact Hc|]. split; [reflexivity|].
  exact (Create_then_GetByID _ _ _ _ _ Hne Hc (no_fault 10 11) eq_refl).
Defined.

(** ** Update *)

(** C1. Update, when neither round trip is refused: an id that is not in
    the table gives NotFound and leaves the table alone; for a stored todo
    the result is the todo reconciled as the specification words it (title
    and description provided or kept, completed flipped and completed_at
    stamped from the application clock or cleared only when a different
    value is provided, updated_at set from the database clock, id and
    created_at kept), and that todo is what the table now holds under the
    id, every other row being untouched. *)
Theorem Update_reconciles d e id req :
  fault1 e = None →
  (todos d !! id = None → Update d e id req = (d, Ok None)) ∧
  (∀ r cur, todos d !! id = Some r → Scan (id, r) = Ok cur →
     fault2 e = None →
     ∃ d', Update d e id req = (d', Ok (Some (reconciled e cur req))) ∧
           Todo.ID (reconciled e cur req) = id ∧
           select_by_id d' id = Some (id, row_of (reconciled e cur req)) ∧
           Scan (id, row_of (reconciled e cur req))
             = Ok (reconciled e cur req) ∧
           ∀ j, j ≠ id → todos d' !! j = todos d !! j).
Proof.
  intros He1. split.
  - intros Hr. by apply Update_missing.
  - intros r cur Hr Hs He2. eexists. split; [by eapply Update_found|].
    pose proof (Scan_ID _ _ _ Hs) as Hid.
    split; [done|]. split; [|split].
    + unfold select_by_id. simpl. by rewrite lookup_insert_eq.
    + by apply Scan_row_of.
    + intros j Hj. simpl. by rewrite lookup_insert_ne.
Qed.

Lemma Update_reconciles_witness :
  fault1 (no_fault 8 9) = None ∧
  Update (init_sql 7) (no_fault 8 9) 5
    (UpdateTodoRequest.mk (Some "x") None None) = (init_sql 7, Ok None) ∧
  ∃ d',
    Update (init_sql 7) (no_fault 8 9) 2
      (UpdateTodoRequest.mk (Some "Build an API") None (Some true))
    = (d', Ok (Some (Todo.mk 2 "Build an API"
                       "Create a Todo API using Go and PostgreSQL"
                       true 7 9 (Some 8)))).
Proof.
  split; [reflexivity|]. split.
  - apply (Update_reconciles (init_sql 7) (no_fault 8 9) 5 _ eq_refl).
    reflexivity.
  - destruct (Update_reconciles (init_sql 7) (no_fault 8 9) 2
                (UpdateTodoRequest.mk (Some "Build an API") None (Some true))
                eq_refl) as [_ H].
    destruct (H (mkrow "Build a REST API"
                   (Some "Create a Todo API using Go and PostgreSQL")
                   (Some false) 7 7 None)
                (Todo.mk 2 "Build a REST API"
                   "Create a Todo API using Go and PostgreSQL" false 7 7 None)
                eq_refl eq_refl eq_refl) as (d' & Hu & _).
    exists d'. exact Hu.
Defined.

(** C2. On every table reachable from init.sql by repository calls each row
    has a completion time exactly when it is completed, and so has every todo
    Create or Update returns.  An Update that returns a todo stamps
    completed_at with the application clock when completed goes from false to
    true, clears it when completed goes from true to false, and leaves it as
    it was when completed stays, whatever else the request changes; so a
    completion time appears only on a false-to-true transition and disappears
    only on a true-to-false one. *)
Theorem completion_invariant d :
  reachable d →
  (∀ id r, todos d !! id = Some r → row_complete r) ∧
  (∀ e req d' t, Create d e req = (d', Ok t) → todo_complete t) ∧
  (∀ e id req r cur d' t,
     todos d !! id = Some r → Scan (id, r) = Ok cur →
     Update d e id req = (d', Ok (Some t)) →
     todo_complete t ∧
     (Todo.Completed cur = false → Todo.Completed t = true →
        Todo.CompletedAt t = Some (time_Now e)) ∧
     (Todo.Completed cur = true → Todo.Completed t = false →
        Todo.CompletedAt t = None) ∧
     (Todo.Completed t = Todo.Completed cur →
        Todo.CompletedAt t = Todo.CompletedAt cur) ∧
     (Todo.CompletedAt cur = None → is_Some (Todo.CompletedAt t) →
        Todo.Completed cur = false ∧ Todo.Completed t = true) ∧
     (is_Some (Todo.CompletedAt cur) → Todo.CompletedAt t = None →
        Todo.Completed cur = true ∧ Todo.Completed t = false)).
Proof.
  intros Hd%reachable_ok. split; [|split].
  - intros id r Hr. by destruct (Hd id r Hr) as (_ & _ & _ & Hc).
  - intros e req d' t (_ & _ & -> & _)%Create_Ok.
    unfold todo_complete. simpl. split; [by intros [? [=]]|done].
  - intros e id req r cur d' t Hr Hs
      (r' & cur' & _ & _ & Hr' & Hs' & -> & _)%Update_Some.
    assert (r' = r) as -> by congruence.
    assert (cur' = cur) as -> by congruence.
    assert (todo_complete cur) as Hcur.
    { eapply Scan_complete; [exact Hs|].
      by destruct (Hd id r Hr) as (_ & _ & _ & Hc). }
    split; [by apply reconciled_complete|].
    revert Hcur. unfold todo_complete, reconciled, reconciled_completion.
    simpl. destruct (UpdateTodoRequest.Completed req) as [c|];
      [case_bool_decide|];
      destruct (Todo.Completed cur), (Todo.CompletedAt cur) as [at_|];
      simpl; intros [H1 H2]; repeat split; intros; try done;
      try (by destruct H1 as [? [=]] || by destruct H1);
      try (by specialize (H2 eq_refl) as [? [=]]);
      try (by destruct (is_Some_None (A:=Time)); eauto).
Qed.

Lemma completion_invariant_witness :
  reachable (init_sql 7) ∧
  row_complete (mkrow "Learn Go" (Some "Study Go programming language basics")
                  (Some true) 7 7 (Some 7)) ∧
  ∃ d' t,
    Update (init_sql 7) (no_fault 8 9) 1
      (UpdateTodoRequest.mk (Some "Learn Rocq") None (Some true))
      = (d', Ok (Some t)) ∧
    Todo.Title t = "Learn Rocq" ∧ Todo.CompletedAt t = Some 7.
Proof.
  destruct (completion_invariant (init_sql 7) (reach_init 7))
    as (Hrows & _ & Hupd).
  split; [apply reach_init|]. split; [exact (Hrows 1 _ eq_refl)|].
  assert (Update (init_sql 7) (no_fault 8 9) 1
            (UpdateTodoRequest.mk (Some "Learn Rocq") None (Some true))
          = (_, Ok (Some (Todo.mk 1 "Learn Rocq"
                            "Study Go programming language basics"
                            true 7 9 (Some 7))))) as Hu
    by (vm_compute; reflexivity).
  eexists _, _. split; [exact Hu|]. split; [reflexivity|].
  destruct (Hupd (no_fault 8 9) 1 _ _
              (Todo.mk 1 "Learn Go" "Study Go programming language basics"
                 true 7 7 (Some 7))
              _ _ eq_refl eq_refl Hu) as (_ & _ & _ & Hsame & _).
  exact (Hsame eq_refl).
Defined.

(** C4, as stated, fails: completed_at is stamped from the application clock
    and updated_at from the database clock.  On the table of init.sql run at
    database time 100, an Update of todo 2 with completed = true while the
    application clock reads 50 returns completed_at = 50, earlier than the
    updated_at = 100 the todo had. *)
Lemma Update_stamps_before_updated_at :
  ∃ cur d' t,
    GetByID (init_sql 100) (no_fault 50 200) 2
      = (init_sql 100, Ok (Some cur)) ∧
    Update (init_sql 100) (no_fault 50 200) 2
      (UpdateTodoRequest.mk None None (Some true)) = (d', Ok (Some t)) ∧
    Todo.Completed cur = false ∧ Todo.Completed t = true ∧
    Todo.UpdatedAt cur = 100 ∧ Todo.CompletedAt t = Some 50 ∧
    ¬ (∀ at_, Todo.CompletedAt t = Some at_ → Todo.UpdatedAt cur <= at_).
Proof.
  eexists _, _, _. split; [reflexivity|]. split; [vm_compute; reflexivity|].
  simpl. repeat split. intros H. specialize (H 50 eq_refl). lia.
Qed.

(** C4, amended.  For every stored todo and with no round trip refused, an
    Update that turns completed from false to true stamps completed_at with
    the reading of the application clock, whatever the clocks read, and an
    Update that turns completed from true to false clears completed_at.
    The stamp is no earlier than the updated_at the todo had when the
    application and the database read one clock that never runs backwards;
    with separate clocks it can be earlier. *)
Theorem Update_toggle_completed_at d e id cur :
  fault1 e = None → fault2 e = None →
  GetByID d e id = (d, Ok (Some cur)) →
  (Todo.Completed cur = false →
   ∀ req, UpdateTodoRequest.Completed req = Some true →
     ∃ d' t, Update d e id req = (d', Ok (Some t)) ∧
             Todo.Completed t = true ∧
             Todo.CompletedAt t = Some (time_Now e) ∧
             (∀ now, one_clock now d → now <= time_Now e →
                     Todo.UpdatedAt cur <= time_Now e)) ∧
  (Todo.Completed cur = true →
   ∀ req, UpdateTodoRequest.Completed req = Some false →
     ∃ d' t, Update d e id req = (d', Ok (Some t)) ∧
             Todo.Completed t = false ∧ Todo.CompletedAt t = None).
Proof.
  intros He1 He2 (r & Hr & Hs)%GetByID_Some.
  pose proof (Scan_Ok _ _ _ Hs) as (_ & _ & Hcur).
  split; intros Hc req Hreq; eexists _, _;
    (split; [by eapply Update_found|]);
    unfold reconciled, reconciled_completion; rewrite Hreq, Hc; simpl;
    repeat split.
  intros now Hclock Hnow.
  pose proof (one_clock_by _ _ Hclock id r Hr) as [_ Hup].
  rewrite Hcur. simpl. lia.
Qed.

Lemma Update_toggle_completed_at_witness :
  (∃ d' t,
     Update (init_sql 100) (no_fault 50 200) 2
       (UpdateTodoRequest.mk None None (Some true)) = (d', Ok (Some t)) ∧
     Todo.Completed t = true ∧ Todo.CompletedAt t = Some 50) ∧
  (one_clock 7 (init_sql 7) ∧
   ∃ d' t,
     Update (init_sql 7) (no_fault 8 9) 2
       (UpdateTodoRequest.mk None None (Some true)) = (d', Ok (Some t)) ∧
     Todo.Completed t = true ∧ Todo.CompletedAt t = Some 8 ∧ 7 <= 8) ∧
  (∃ d' t,
     Update (init_sql 100) (no_fault 50 200) 1
       (UpdateTodoRequest.mk None None (Some false)) = (d', Ok (Some t)) ∧
     Todo.Completed t = false ∧ Todo.CompletedAt t = None).
Proof.
  split; [|split].
  - destruct (Update_toggle_completed_at (init_sql 100) (no_fault 50 200) 2
                (Todo.mk 2 "Build a REST API"
                   "Create a Todo API using Go and PostgreSQL"
                   false 100 100 None)
                eq_refl eq_refl eq_refl) as [H _].
    destruct (H eq_refl (UpdateTodoRequest.mk None None (Some true)) eq_refl)
      as (d' & t & Hu & Hc & Hat & _).
    exists d', t. split; [exact Hu|]. split; [exact Hc|exact Hat].
  - split; [apply one_clock_init|].
    destruct (Update_toggle_completed_at (init_sql 7) (no_fault 8 9) 2
                (Todo.mk 2 "Build a REST API"
                   "Create a Todo API using Go and PostgreSQL" false 7 7 None)
                eq_refl eq_refl eq_refl) as [H _].
    destruct (H eq_refl (UpdateTodoRequest.mk None None (Some true)) eq_refl)
      as (d' & t & Hu & Hc & Hat & Hord).
    exists d', t. split; [exact Hu|]. split; [exact Hc|]. split; [exact Hat|].
    exact (Hord 7 (one_clock_init 7) ltac:(simpl; lia)).
  - destruct (Update_toggle_completed_at (init_sql 100) (no_fault 50 200) 1
                (Todo.mk 1 "Learn Go" "Study Go programming language basics"
                   true 100 100 (Some 100))
                eq_refl eq_refl eq_refl) as [_ H].
    exact (H eq_refl (UpdateTodoRequest.mk None None (Some false)) eq_refl).
Defined.




(** ** Delete *)

(** C7. Delete of any id the handler parsed, present in the table or not,
    succeeds unless its round trip is refused, and the handler answers 204
    with no body; on the table it leaves, GetByID of that id finds nothing
    (NotFound), unless its own round trip is refused. *)
Theorem Delete_then_NotFound d e seg id r :
  strconv.ParseInt seg = (id, None) →
  fault1 e = None →
  ∃ d', Delete d e id = (d', None) ∧
        handlers.DeleteTodo d e (id_var seg) r
          = (d', mkResponse StatusNoContent EmptyString NoBody) ∧
        ∀ e', fault1 e' = None → GetByID d' e' id = (d', Ok None).
Proof.
  intros Hp He. exists (delete_todo d id).
  assert (Delete d e id = (delete_todo d id, None)) as Hdel
    by (unfold Delete; by rewrite He).
  split; [exact Hdel|]. split.
  - unfold handlers.DeleteTodo, mux.Vars, id_var.
    rewrite lookup_singleton_eq. simpl. by rewrite Hp, Hdel.
  - intros e' He'. apply GetByID_missing; [done|]. simpl.
    apply lookup_delete_eq.
Qed.

Lemma Delete_then_NotFound_witness :
  strconv.ParseInt "2" = (2, None) ∧ strconv.ParseInt "42" = (42, None) ∧
  (∃ d', Delete (init_sql 7) (no_fault 8 9) 2 = (d', None) ∧
         GetByID d' (no_fault 10 11) 2 = (d', Ok None)) ∧
  snd (handlers.DeleteTodo (init_sql 7) (no_fault 8 9) (id_var "42")
         (mkRequest "DELETE" (todo_path "42") None))
    = mkResponse StatusNoContent EmptyString NoBody.
Proof.
  split; [reflexivity|]. split; [reflexivity|]. split.
  - destruct (Delete_then_NotFound (init_sql 7) (no_fault 8 9) "2" 2
                (mkRequest "DELETE" (todo_path "2") None) eq_refl eq_refl)
      as (d' & Hdel & _ & Hget).
    exists d'. split; [exact Hdel|]. exact (Hget (no_fault 10 11) eq_refl).
  - destruct (Delete_then_NotFound (init_sql 7) (no_fault 8 9) "42" 42
                (mkRequest "DELETE" (todo_path "42") None) eq_refl eq_refl)
      as (d' & _ & Hh & _).
    by rewrite Hh.
Defined.

(** ** GetAll *)

Lemma scan_rows_Ok rows acc ts :
  scan_rows rows acc = Ok ts →
  ∃ l, Forall2 (λ kr t, Scan kr = Ok t) rows l ∧
       elems ts = elems acc ++ l ∧
       (ts = None ↔ acc = None ∧ rows = []).
Proof.
  revert acc. induction rows as [|kr rows IH]; simpl; intros acc.
  - intros [= ->]. exists []. rewrite app_nil_r.
    split; [constructor|]. split; [done|]. split; [by intros ->|by intros [-> _]].
  - destruct (Scan kr) as [t|] eqn:Hs; [|done].
    intros (l & Hl & Hts & Hnil)%IH. exists (t :: l).
    split; [by constructor|]. split.
    + rewrite Hts. destruct acc; simpl; by rewrite <- ?app_assoc.
    + split; [|by intros [_ [=]]]. intros H%Hnil. by destruct acc, H.
Qed.

Lemma scan_rows_total rows acc :
  Forall (λ kr, ∃ t, Scan kr = Ok t) rows → ∃ ts, scan_rows rows acc = Ok ts.
Proof.
  intros H. revert acc. induction H as [|kr rows [t Ht] _ IH]; simpl; [eauto|].
  intros acc. rewrite Ht. apply IH.
Qed.

Global Instance created_at_desc_trans : Transitive created_at_desc.
Proof. unfold created_at_desc. intros x y z. lia. Qed.

Global Instance created_at_desc_total : Total created_at_desc.
Proof. unfold created_at_desc. intros x y. lia. Qed.

(** What GetAll returns when it returns: the todos of all the rows of the
    table, each once, newest [created_at] first. *)
Lemma GetAll_Ok d e ts :
  GetAll d e = (d, Ok ts) →
  ∃ rows, rows ≡ₚ map_to_list (todos d) ∧
          Forall2 (λ kr t, Scan kr = Ok t) rows (elems ts) ∧
          StronglySorted (λ a b, Todo.CreatedAt b <= Todo.CreatedAt a)
            (elems ts) ∧
          (ts = None ↔ todos d = ∅).
Proof.
  unfold GetAll. destruct (fault1 e); [done|]. intros [= Hscan].
  apply scan_rows_Ok in Hscan as (l & Hl & Hts & Hnil). simpl in Hts.
  subst l. exists (select_all d). split; [apply merge_sort_Permutation|].
  split; [done|]. split.
  - pose proof (StronglySorted_merge_sort created_at_desc
                  (map_to_list (todos d))) as Hsorted.
    fold (select_all d) in Hsorted. revert Hl Hsorted.
    generalize (select_all d) (elems ts). clear.
    induction 1 as [|kr t rows l Hs Hl IH]; [constructor|].
    intros [Hrows Hhd]%StronglySorted_inv. constructor; [by apply IH|].
    clear IH Hrows. induction Hl as [|kr' t' rows l Hs' Hl IH]; [constructor|].
    apply Forall_cons in Hhd as [Hhd Hrest]. constructor; [|by apply IH].
    destruct kr as [id r], kr' as [id' r'].
    apply Scan_Ok in Hs as (_ & _ & ->), Hs' as (_ & _ & ->).
    exact Hhd.
  - rewrite Hnil. split.
    + intros [_ Hsel]. apply map_to_list_empty_iff.
      apply Permutation_nil_r. rewrite <- Hsel.
      symmetry. apply merge_sort_Permutation.
    + intros Hempty. split; [done|]. unfold select_all. by rewrite Hempty.
Qed.

Lemma GetAll_no_rows d e :
  fault1 e = None → todos d = ∅ → GetAll d e = (d, Ok None).
Proof.
  intros He Hempty. unfold GetAll, select_all. by rewrite He, Hempty.
Qed.

Lemma GetAll_total d e :
  db_ok d → fault1 e = None → ∃ ts, GetAll d e = (d, Ok ts).
Proof.
  intros Hd He. unfold GetAll. rewrite He.
  destruct (scan_rows_total (select_all d) None) as [ts Hts]; [|by exists ts; rewrite Hts].
  apply Forall_forall. intros [id r] Hin.
  apply (db_ok_Scan d id r Hd). apply elem_of_map_to_list.
  by rewrite <- (merge_sort_Permutation created_at_desc).
Qed.

(** On a table with rows the answer of the list handler is 200 with a JSON
    array of the todos, newest first. *)
Lemma GetAllTodos_array d e vars r :
  db_ok d → fault1 e = None → todos d ≠ ∅ →
  ∃ l, handlers.GetAllTodos d e vars r
         = (d, handlers.respondWithJSON StatusOK
                 (json.Array (json.of_Todo <$> l))) ∧
       StronglySorted (λ a b, Todo.CreatedAt b <= Todo.CreatedAt a) l ∧
       ∃ rows, rows ≡ₚ map_to_list (todos d) ∧
               Forall2 (λ kr t, Scan kr = Ok t) rows l.
Proof.
  intros Hd He Hne. destruct (GetAll_total d e Hd He) as [ts Hts].
  destruct (GetAll_Ok d e ts Hts) as (rows & Hperm & Hscan & Hsorted & Hnil).
  unfold handlers.GetAllTodos. rewrite Hts.
  destruct ts as [l|]; [|by destruct Hne; apply Hnil].
  exists l. split; [done|]. split; [done|]. by exists rows.
Qed.

(** C6.  The table of init.sql after its three rows were deleted is empty;
    the list request on it is answered 200 with the JSON value null, which
    is how the nil slice GetAll returns for no rows is encoded, not with an
    empty JSON array. *)
Theorem GetAllTodos_empty_table_null :
  ∃ d,
    d = run (CallDelete 3)
          (run (CallDelete 2)
             (run (CallDelete 1) (init_sql 7) (no_fault 8 9)) (no_fault 8 9))
          (no_fault 8 9) ∧
    reachable d ∧ todos d = ∅ ∧
    router.ServeHTTP d (no_fault 8 9) (mkRequest "GET" "/api/v1/todos" None)
      = (d, handlers.respondWithJSON StatusOK json.Null) ∧
    json.Null ≠ json.Array [].
Proof.
  eexists. split; [reflexivity|]. split; [do 3 apply reach_call; apply reach_init|].
  split; [by vm_compute|]. split; [by vm_compute|]. discriminate.
Qed.

(** ** strconv.ParseInt on decimal strings *)

Lemma digit_Some c d : strconv.digit c = Some d → 0 <= d <= 9.
Proof.
  unfold strconv.digit.
  destruct (48 <=? Z.of_N (N_of_ascii c)) eqn:H1,
    (Z.of_N (N_of_ascii c) <=? 57) eqn:H2; simpl; intros [= <-]; lia.
Qed.

Lemma digit_not_sign c d :
  strconv.digit c = Some d → c ≠ "-"%char ∧ c ≠ "+"%char.
Proof. intros H. split; intros ->; vm_compute in H; discriminate. Qed.

Lemma decimal_from_ge s n : all_digits s = true → 0 <= n → n <= decimal_from n s.
Proof.
  revert n. induction s as [|c s IH]; simpl; intros n; [lia|].
  intros [Hc Hs]%andb_prop Hn. apply bool_decide_eq_true in Hc as [d Hd].
  rewrite Hd. simpl. pose proof (digit_Some c d Hd).
  etrans; [|apply IH; [done|lia]]. lia.
Qed.

Lemma ParseUint_loop_digits s n :
  all_digits s = true → 0 <= n <= strconv.maxUint64 →
  strconv.ParseUint_loop s n =
    if decimal_from n s <=? strconv.maxUint64
    then (decimal_from n s, None)
    else (strconv.maxUint64, Some strconv.ErrRange).
Proof.
  revert n. induction s as [|c s IH]; simpl; intros n.
  - intros _ Hn. by rewrite (proj2 (Z.leb_le _ _)) by lia.
  - intros [Hc Hs]%andb_prop Hn. apply bool_decide_eq_true in Hc as [d Hd].
    rewrite Hd. simpl. pose proof (digit_Some c d Hd) as Hd9.
    pose proof (decimal_from_ge s (n * 10 + d) Hs) as Hge.
    unfold strconv.maxUint64 in *.
    change (2 ^ 64) with 18446744073709551616 in *.
    change ((18446744073709551616 - 1) `div` 10 + 1)
      with 1844674407370955162.
    destruct (1844674407370955162 <=? n) eqn:Hcut.
    { apply Z.leb_le in Hcut. by rewrite (proj2 (Z.leb_gt _ _)) by lia. }
    apply Z.leb_gt in Hcut.
    rewrite (Z.mod_small (n * 10)) by lia.
    destruct (decide (n * 10 + d < 18446744073709551616)) as [Hfit|Hover].
    + rewrite (Z.mod_small (n * 10 + d)) by lia.
      rewrite (proj2 (Z.ltb_ge _ _)) by lia.
      rewrite (proj2 (Z.ltb_ge _ _)) by lia. simpl. apply IH; [done|lia].
    + assert ((n * 10 + d) mod 18446744073709551616
              = n * 10 + d - 18446744073709551616) as ->.
      { symmetry. apply (Z.mod_unique _ _ 1); lia. }
      rewrite (proj2 (Z.ltb_lt _ _)) by lia. simpl.
      by rewrite (proj2 (Z.leb_gt _ _)) by lia.
Qed.

Lemma numeric_inv s :
  numeric s = true →
  ∃ c s' d, s = String c s' ∧ strconv.digit c = Some d ∧ all_digits s = true.
Proof.
  unfold numeric. destruct s as [|c s']; [done|]. simpl.
  intros [Hc Hs]%andb_prop. pose proof Hc as [d Hd]%bool_decide_eq_true.
  exists c, s', d. by rewrite Hc, Hs.
Qed.

Lemma decimal_nonneg s : all_digits s = true → 0 <= decimal s.
Proof. intros Hs. by apply decimal_from_ge. Qed.

(** On a non-empty string of digits ParseInt returns its value, or reports
    the range error when the value does not fit a signed 64-bit integer. *)
Lemma ParseInt_numeric s :
  numeric s = true →
  strconv.ParseInt s =
    if decimal s <? 2 ^ 63 then (decimal s, None)
    else (2 ^ 63 - 1, Some strconv.ErrRange).
Proof.
  intros Hnum. destruct (numeric_inv s Hnum) as (c & s' & d & -> & Hd & Hs).
  destruct (digit_not_sign c d Hd) as [Hminus Hplus].
  pose proof (decimal_nonneg _ Hs) as Hpos.
  unfold strconv.ParseInt.
  rewrite (bool_decide_eq_false_2 _ Hminus), (bool_decide_eq_false_2 _ Hplus).
  cbn [orb negb andb]. unfold strconv.ParseUint.
  rewrite (ParseUint_loop_digits _ 0 Hs) by (unfold strconv.maxUint64; lia).
  fold (decimal (String c s')). unfold strconv.maxUint64.
  change (2 ^ 64 - 1) with 18446744073709551615.
  change (2 ^ 63) with 9223372036854775808.
  destruct (decimal (String c s') <=? 18446744073709551615) eqn:Hfit;
    destruct (decimal (String c s') <? 9223372036854775808) eqn:Hlt;
    try apply Z.leb_le in Hfit; try apply Z.leb_gt in Hfit;
    try apply Z.ltb_lt in Hlt; try apply Z.ltb_ge in Hlt; try lia.
  - by rewrite (proj2 (Z.leb_gt _ _)) by lia.
  - by rewrite (proj2 (Z.leb_le _ _)) by lia.
  - reflexivity.
Qed.

(** ** Matching the routes *)

Lemma strip_prefix_Some pre s rest :
  mux.strip_prefix pre s = Some rest → s = String.app pre rest.
Proof.
  revert s. induction pre as [|a pre IH]; intros [|b s]; simpl; try done.
  - by intros [= <-].
  - by intros [= <-].
  - case_bool_decide as Hab; [|done]. subst b. by intros ->%IH.
Qed.

Lemma strip_prefix_app pre rest :
  mux.strip_prefix pre (String.app pre rest) = Some rest.
Proof.
  induction pre as [|a pre IH]; simpl; [by destruct rest|].
  by rewrite bool_decide_eq_true_2.
Qed.

Lemma span_digits_spec s ds rest :
  mux.span_digits s = (ds, rest) →
  s = String.app ds rest ∧ all_digits ds = true.
Proof.
  revert ds rest. induction s as [|c s IH]; simpl; intros ds rest.
  - by intros [= <- <-].
  - destruct (strconv.digit c) as [d|] eqn:Hd.
    + destruct (mux.span_digits s) as [ds' rest'].
      intros [= <- <-]. destruct (IH ds' rest' eq_refl) as [-> Hds].
      simpl. rewrite Hd, Hds. split; [done|].
      by rewrite bool_decide_eq_true_2.
    + by intros [= <- <-].
Qed.

Lemma span_digits_all s :
  all_digits s = true → mux.span_digits s = (s, EmptyString).
Proof.
  induction s as [|c s IH]; simpl; [done|].
  intros [[d Hd]%bool_decide_eq_true Hs]%andb_prop. by rewrite Hd, IH.
Qed.

Lemma string_app_empty_r (s : string) : String.app s EmptyString = s.
Proof. induction s as [|a s IH]; [done|]. by rewrite <- IH at 2. Qed.

(** The id variable of a template matches exactly the non-empty strings of
    digits. *)
Lemma match_Digits name s :
  mux.match_template [mux.Digits name] s =
    if numeric s then Some {[name := s]} else None.
Proof.
  simpl. destruct (mux.span_digits s) as [ds rest] eqn:Hspan.
  destruct (numeric s) eqn:Hnum.
  - destruct (numeric_inv s Hnum) as (c & s' & d & -> & _ & Hs).
    rewrite (span_digits_all _ Hs) in Hspan. injection Hspan as <- <-.
    rewrite bool_decide_eq_false_2 by done. simpl.
    by rewrite insert_empty.
  - apply span_digits_spec in Hspan as [-> Hds].
    case_bool_decide as Hempty; [done|].
    case_bool_decide as Hrest; [|done]. subst rest.
    rewrite string_app_empty_r in Hnum. unfold numeric in Hnum.
    by rewrite Hds, bool_decide_eq_false_2 in Hnum.
Qed.

Lemma match_todos_route path vars :
  mux.match_template [mux.Lit "/api/v1"; mux.Lit "/todos"] path = Some vars →
  path = "/api/v1/todos" ∧ vars = ∅.
Proof.
  cbn [mux.match_template].
  destruct (mux.strip_prefix "/api/v1" path) as [rest|] eqn:H1; [|done].
  cbn [mbind option_bind].
  destruct (mux.strip_prefix "/todos" rest) as [rest'|] eqn:H2; [|done].
  cbn [mbind option_bind]. case_bool_decide as H3; [|done].
  intros [= <-]. apply strip_prefix_Some in H1, H2. by subst.
Qed.

Lemma match_todo_route path vars :
  mux.match_template [mux.Lit "/api/v1"; mux.Lit "/todos/"; mux.Digits "id"]
    path = Some vars →
  ∃ seg, path = todo_path seg ∧ numeric seg = true ∧ vars = {["id" := seg]}.
Proof.
  change (mux.match_template
            [mux.Lit "/api/v1"; mux.Lit "/todos/"; mux.Digits "id"] path)
    with (rest ← mux.strip_prefix "/api/v1" path;
          rest' ← mux.strip_prefix "/todos/" rest;
          mux.match_template [mux.Digits "id"] rest').
  destruct (mux.strip_prefix "/api/v1" path) as [rest|] eqn:H1; [|done].
  cbn [mbind option_bind].
  destruct (mux.strip_prefix "/todos/" rest) as [seg|] eqn:H2; [|done].
  cbn [mbind option_bind]. rewrite match_Digits.
  destruct (numeric seg) eqn:Hnum; [|done]. intros [= <-].
  apply strip_prefix_Some in H1, H2. subst. by exists seg.
Qed.

Lemma match_todo_route_non_numeric seg :
  numeric seg = false →
  mux.match_template [mux.Lit "/api/v1"; mux.Lit "/todos/"; mux.Digits "id"]
    (todo_path seg) = None.
Proof.
  intros Hnum.
  destruct (mux.match_template _ (todo_path seg)) as [vars|] eqn:Hm; [|done].
  apply match_todo_route in Hm as (seg' & Hpath & Hnum' & _).
  unfold todo_path in Hpath. simplify_eq/=. congruence.
Qed.

Lemma match_todos_route_segment seg :
  mux.match_template [mux.Lit "/api/v1"; mux.Lit "/todos"] (todo_path seg)
    = None.
Proof.
  destruct (mux.match_template _ (todo_path seg)) as [vars|] eqn:Hm; [|done].
  by apply match_todos_route in Hm as [? _].
Qed.

(** A matched request was matched by one of the routes. *)
Lemma Match_Matched {H} (routes : list (mux.Route H)) method path b h vars :
  mux.Match routes method path b = mux.Matched h vars →
  ∃ r, r ∈ routes ∧ mux.match_template (mux.template r) path = Some vars ∧
       method ∈ mux.methods r ∧ mux.handler r = h.
Proof.
  revert b. induction routes as [|r routes IH]; simpl; intros b.
  - by destruct b.
  - destruct (mux.match_template (mux.template r) path) as [vars'|] eqn:Hm.
    + case_bool_decide as Hmeth.
      * intros [= <- <-]. exists r. split; [by left|done].
      * intros (r' & Hin & Hr')%IH. exists r'. split; [by right|done].
    + intros (r' & Hin & Hr')%IH. exists r'. split; [by right|done].
Qed.

Lemma SetupRouter_routes r :
  r ∈ router.SetupRouter →
  (mux.template r = [mux.Lit "/api/v1"; mux.Lit "/todos"] ∧
   (mux.handler r = handlers.GetAllTodos ∨
    mux.handler r = handlers.CreateTodo)) ∨
  (mux.template r = [mux.Lit "/api/v1"; mux.Lit "/todos/"; mux.Digits "id"] ∧
   (mux.handler r = handlers.GetTodo ∨ mux.handler r = handlers.UpdateTodo ∨
    mux.handler r = handlers.DeleteTodo)).
Proof.
  unfold router.SetupRouter, mux.Subrouter, router.HandleFunc. simpl.
  intros Hin. repeat (apply elem_of_cons in Hin as [->|Hin]); simpl; auto.
  by apply elem_of_nil in Hin.
Qed.

Lemma Match_non_numeric method seg :
  numeric seg = false →
  mux.Match router.SetupRouter method (todo_path seg) false = mux.ErrNotFound.
Proof.
  intros Hnum.
  unfold router.SetupRouter, mux.Subrouter, router.HandleFunc.
  cbn [fmap list_fmap mux.Match mux.template mux.methods mux.handler].
  by rewrite !match_todos_route_segment,
    !(match_todo_route_non_numeric seg Hnum).
Qed.

(** The handlers of the list and create routes never answer
    "Invalid todo ID". *)
Lemma no_id_no_invalid_id d e vars r :
  snd (handlers.GetAllTodos d e vars r)
    ≠ Error (Text "Invalid todo ID") StatusBadRequest ∧
  snd (handlers.CreateTodo d e vars r)
    ≠ Error (Text "Invalid todo ID") StatusBadRequest.
Proof.
  unfold handlers.GetAllTodos, handlers.CreateTodo. split.
  - by destruct (GetAll d e) as [? []].
  - destruct (json.Decode _ _ _) as [req|]; [|done].
    case_bool_decide; [done|]. by destruct (Create d e req) as [? []].
Qed.

(** The handlers of the id routes answer "Invalid todo ID" exactly when
    ParseInt reports an error. *)
Lemma invalid_id_iff d e vars r :
  let bad := Error (Text "Invalid todo ID") StatusBadRequest in
  let failed := snd (strconv.ParseInt (mux.Vars vars "id")) ≠ None in
  (snd (handlers.GetTodo d e vars r) = bad ↔ failed) ∧
  (snd (handlers.UpdateTodo d e vars r) = bad ↔ failed) ∧
  (snd (handlers.DeleteTodo d e vars r) = bad ↔ failed).
Proof.
  unfold handlers.GetTodo, handlers.UpdateTodo, handlers.DeleteTodo.
  destruct (strconv.ParseInt (mux.Vars vars "id")) as [id [err|]]; simpl.
  { repeat split; done. }
  repeat split; try done; intros H; exfalso; revert H.
  - by destruct (GetByID d e id) as [? [[]|]].
  - destruct (json.Decode _ _ _) as [req|]; [|done].
    by destruct (Update d e id req) as [? [[]|]].
  - by destruct (Delete d e id) as [? []].
Qed.

(** ** The routes *)

(** C5, as stated, fails: the route of Get one only matches an id segment
    of digits, so GET /api/v1/todos/abc matches no route and is answered by
    the router with 404, not by the handler with 400. *)
Lemma GetTodo_abc_not_found :
  numeric "abc" = false ∧
  snd (router.ServeHTTP (init_sql 7) (no_fault 8 9)
         (mkRequest "GET" "/api/v1/todos/abc" None))
    = Error (Text "404 page not found") StatusNotFound ∧
  Status (snd (router.ServeHTTP (init_sql 7) (no_fault 8 9)
                 (mkRequest "GET" "/api/v1/todos/abc" None)))
    ≠ StatusBadRequest.
Proof. split; [reflexivity|]. split; [by vm_compute|]. by vm_compute. Qed.

(** C5, amended.  A request for /api/v1/todos/ followed by anything that is
    not a non-empty string of digits matches no route: the router answers it
    itself, with 404, or with the redirect to the clean form of the path when
    the path is not clean; the table is not touched and no handler runs. *)
Theorem non_numeric_id_not_routed d e method seg body :
  numeric seg = false →
  router.ServeHTTP d e (mkRequest method (todo_path seg) body) =
    (d, if bool_decide (mux.cleanPath (todo_path seg) = todo_path seg)
        then Error (Text "404 page not found") StatusNotFound
        else mkResponse StatusMovedPermanently EmptyString NoBody).
Proof.
  intros Hnum. unfold router.ServeHTTP. cbn [URL_Path Method].
  case_bool_decide; [|done]. by rewrite (Match_non_numeric method seg Hnum).
Qed.

Lemma non_numeric_id_not_routed_witness :
  numeric "12a" = false ∧
  router.ServeHTTP (init_sql 7) (no_fault 8 9)
    (mkRequest "GET" (todo_path "12a") None)
  = (init_sql 7, Error (Text "404 page not found") StatusNotFound).
Proof.
  split; [reflexivity|].
  exact (non_numeric_id_not_routed (init_sql 7) (no_fault 8 9) "GET" "12a"
           None eq_refl).
Defined.

(** C10. A request that a route hands to a handler with an id variable has
    the path /api/v1/todos/ followed by that id, a non-empty string of
    digits; ParseInt of it, when it succeeds, gives its decimal value, which
    is not negative, and fails exactly when that value does not fit a signed
    64-bit integer.  So the answer 400 "Invalid todo ID" is given only to a
    path whose digits overflow, and each of the three handlers gives it
    then. *)
Theorem id_of_route_is_decimal :
  (∀ method path h vars seg,
     mux.Match router.SetupRouter method path false = mux.Matched h vars →
     vars !! "id" = Some seg →
     path = todo_path seg ∧ numeric seg = true ∧
     (∀ n, strconv.ParseInt seg = (n, None) → 0 <= n ∧ n = decimal seg) ∧
     (snd (strconv.ParseInt seg) ≠ None ↔ 2 ^ 63 <= decimal seg)) ∧
  (∀ d e r,
     snd (router.ServeHTTP d e r)
       = Error (Text "Invalid todo ID") StatusBadRequest →
     ∃ seg, URL_Path r = todo_path seg ∧ numeric seg = true ∧
            2 ^ 63 <= decimal seg) ∧
  (∀ d e r seg,
     numeric seg = true → 2 ^ 63 <= decimal seg →
     handlers.GetTodo d e (id_var seg) r
       = (d, Error (Text "Invalid todo ID") StatusBadRequest) ∧
     handlers.UpdateTodo d e (id_var seg) r
       = (d, Error (Text "Invalid todo ID") StatusBadRequest) ∧
     handlers.DeleteTodo d e (id_var seg) r
       = (d, Error (Text "Invalid todo ID") StatusBadRequest)).
Proof.
  assert (∀ seg, numeric seg = true →
            (∀ n, strconv.ParseInt seg = (n, None) → 0 <= n ∧ n = decimal seg) ∧
            (snd (strconv.ParseInt seg) ≠ None ↔ 2 ^ 63 <= decimal seg))
    as Hparse.
  { intros seg Hnum. rewrite (ParseInt_numeric seg Hnum).
    destruct (numeric_inv seg Hnum) as (_ & _ & _ & _ & _ & Hs).
    pose proof (decimal_nonneg seg Hs).
    destruct (decimal seg <? 2 ^ 63) eqn:Hlt;
      [apply Z.ltb_lt in Hlt|apply Z.ltb_ge in Hlt]; simpl.
    - split; [by intros n [= <-]|]. split; [done|lia].
    - split; [by intros n [=]|]. split; [done|by intros _]. }
  split; [|split].
  - intros method path h vars seg
      (r & [[Ht _]|[Ht _]]%SetupRouter_routes & Hm & _)%Match_Matched Hid;
      rewrite Ht in Hm.
    + apply match_todos_route in Hm as [_ ->]. by rewrite lookup_empty in Hid.
    + apply match_todo_route in Hm as (seg' & -> & Hnum & ->).
      rewrite lookup_singleton_eq in Hid. injection Hid as ->.
      split; [done|]. split; [done|]. by apply Hparse.
  - intros d e r. unfold router.ServeHTTP. case_bool_decide; [|done].
    destruct (mux.Match _ _ _ _) as [h vars| |] eqn:HM; [|done|done].
    apply Match_Matched in HM
      as (rt & [[Ht Hh]|[Ht Hh]]%SetupRouter_routes & Hm & _ & <-);
      rewrite Ht in Hm.
    + intros Hbad. exfalso.
      destruct (no_id_no_invalid_id d e vars r) as [H1 H2].
      destruct Hh as [Hh|Hh]; rewrite Hh in Hbad; contradiction.
    + apply match_todo_route in Hm as (seg & Hpath & Hnum & ->).
      intros Hbad. exists seg. split; [done|]. split; [done|].
      apply (Hparse seg Hnum).
      destruct (invalid_id_iff d e {["id" := seg]} r) as (H1 & H2 & H3).
      unfold mux.Vars in H1, H2, H3. rewrite lookup_singleton_eq in H1, H2, H3.
      destruct Hh as [Hh|[Hh|Hh]]; rewrite Hh in Hbad;
        [by apply H1|by apply H2|by apply H3].
  - intros d e r seg Hnum Hover.
    unfold handlers.GetTodo, handlers.UpdateTodo, handlers.DeleteTodo,
      mux.Vars, id_var.
    rewrite lookup_singleton_eq. simpl. rewrite (ParseInt_numeric seg Hnum).
    by rewrite (proj2 (Z.ltb_ge _ _) Hover).
Qed.

Lemma id_of_route_is_decimal_witness :
  mux.Match router.SetupRouter "PUT" (todo_path "42") false
    = mux.Matched handlers.UpdateTodo (id_var "42") ∧
  id_var "42" !! "id" = Some "42" ∧
  strconv.ParseInt "42" = (42, None) ∧
  (0 <= 42 ∧ 42 = decimal "42") ∧
  snd (router.ServeHTTP (init_sql 7) (no_fault 8 9)
         (mkRequest "GET" (todo_path "9223372036854775808") None))
    = Error (Text "Invalid todo ID") StatusBadRequest ∧
  ∃ seg, todo_path "9223372036854775808" = todo_path seg ∧
         numeric seg = true ∧ 2 ^ 63 <= decimal seg.
Proof.
  destruct id_of_route_is_decimal as (HA & HB & _).
  assert (mux.Match router.SetupRouter "PUT" (todo_path "42") false
          = mux.Matched handlers.UpdateTodo (id_var "42")) as Hm
    by reflexivity.
  assert (snd (router.ServeHTTP (init_sql 7) (no_fault 8 9)
                 (mkRequest "GET" (todo_path "9223372036854775808") None))
          = Error (Text "Invalid todo ID") StatusBadRequest) as Hbad
    by (vm_compute; reflexivity).
  split; [exact Hm|]. split; [reflexivity|]. split; [reflexivity|].
  split.
  - destruct (HA "PUT" (todo_path "42") handlers.UpdateTodo (id_var "42") "42"
                Hm eq_refl) as (_ & _ & Hn & _).
    exact (Hn 42 eq_refl).
  - split; [exact Hbad|]. exact (HB _ _ _ Hbad).
Defined.

(** * Further properties *)

(** ** The paths the router takes as they are *)

Lemma split_slash_nonempty s : mux.split_slash s ≠ [].
Proof.
  destruct s as [|c s]; simpl; [done|].
  case_bool_decide; [done|]. by destruct (mux.split_slash s).
Qed.

Lemma split_slash_app a b :
  mux.split_slash (String.app a (String "/" b))
  = mux.split_slash a ++ mux.split_slash b.
Proof.
  induction a as [|c a IH]; simpl; [done|].
  - case_bool_decide; [by rewrite IH|]. rewrite IH.
    pose proof (split_slash_nonempty a).
    by destruct (mux.split_slash a).
Qed.

Lemma digit_not_slash_dot c d :
  strconv.digit c = Some d → c ≠ "/"%char ∧ c ≠ "."%char.
Proof. intros H. split; intros ->; vm_compute in H; discriminate. Qed.

Lemma split_slash_digits s : all_digits s = true → mux.split_slash s = [s].
Proof.
  induction s as [|c s IH]; simpl; [done|].
  intros [[d Hd]%bool_decide_eq_true Hs]%andb_prop.
  destruct (digit_not_slash_dot c d Hd) as [Hslash _].
  by rewrite bool_decide_eq_false_2, IH.
Qed.

Lemma numeric_not_dots seg :
  numeric seg = true → seg ≠ EmptyString ∧ seg ≠ "." ∧ seg ≠ "..".
Proof.
  intros (c & s & d & -> & Hd & _)%numeric_inv.
  destruct (digit_not_slash_dot c d Hd) as [_ Hdot].
  repeat split; [done| |]; intros [= -> _]; done.
Qed.

Lemma split_slash_todo_path seg :
  numeric seg = true →
  mux.split_slash (todo_path seg)
  = [EmptyString; "api"; "v1"; "todos"] ++ [seg].
Proof.
  intros (_ & _ & _ & _ & _ & Hs)%numeric_inv.
  change (todo_path seg) with (String.app "/api/v1/todos" (String "/" seg)).
  by rewrite split_slash_app, (split_slash_digits seg Hs).
Qed.

Lemma cleanPath_todo_path seg :
  numeric seg = true → mux.cleanPath (todo_path seg) = todo_path seg.
Proof.
  intros Hnum. destruct (numeric_not_dots seg Hnum) as (H0 & H1 & H2).
  transitivity
    (if mux.ends_with_slash (todo_path seg)
        && negb (bool_decide (mux.path_Clean (todo_path seg) = "/"))
     then String.app (mux.path_Clean (todo_path seg)) "/"
     else mux.path_Clean (todo_path seg)); [reflexivity|].
  assert (mux.ends_with_slash (todo_path seg) = false) as ->.
  { unfold mux.ends_with_slash.
    rewrite (split_slash_todo_path seg Hnum), last_snoc.
    apply bool_decide_eq_false_2. by intros [= ->]. }
  cbn [andb]. unfold mux.path_Clean.
  rewrite (split_slash_todo_path seg Hnum), foldl_app.
  change (foldl mux.clean_step [] [EmptyString; "api"; "v1"; "todos"])
    with ["todos"; "v1"; "api"].
  cbn [foldl]. unfold mux.clean_step.
  rewrite (bool_decide_eq_false_2 (seg = EmptyString)) by done.
  rewrite (bool_decide_eq_false_2 (seg = ".")) by done.
  rewrite (bool_decide_eq_false_2 (seg = "..")) by done.
  cbn [orb].
  change (reverse [seg; "todos"; "v1"; "api"])
    with ["api"; "v1"; "todos"; seg].
  cbn [foldr]. rewrite string_app_empty_r. reflexivity.
Qed.

(** ** Which handler serves which request *)

Lemma in_methods (method m : string) :
  bool_decide (method ∈ [m]) = bool_decide (method = m).
Proof. apply bool_decide_ext. by rewrite list_elem_of_singleton. Qed.

Lemma match_todo_route_numeric seg :
  numeric seg = true →
  mux.match_template [mux.Lit "/api/v1"; mux.Lit "/todos/"; mux.Digits "id"]
    (todo_path seg) = Some (id_var seg).
Proof.
  intros Hnum.
  change (mux.match_template
            [mux.Lit "/api/v1"; mux.Lit "/todos/"; mux.Digits "id"]
            (todo_path seg))
    with (rest ← mux.strip_prefix "/api/v1"
                   (String.app "/api/v1" (String.app "/todos/" seg));
          rest' ← mux.strip_prefix "/todos/" rest;
          mux.match_template [mux.Digits "id"] rest').
  rewrite strip_prefix_app. cbn [mbind option_bind].
  rewrite strip_prefix_app. cbn [mbind option_bind].
  by rewrite match_Digits, Hnum.
Qed.

Lemma Match_todo_path method seg :
  numeric seg = true →
  mux.Match router.SetupRouter method (todo_path seg) false =
    if bool_decide (method = "GET")
    then mux.Matched handlers.GetTodo (id_var seg)
    else if bool_decide (method = "PUT")
    then mux.Matched handlers.UpdateTodo (id_var seg)
    else if bool_decide (method = "DELETE")
    then mux.Matched handlers.DeleteTodo (id_var seg)
    else mux.ErrMethodMismatch.
Proof.
  intros Hnum.
  unfold router.SetupRouter, mux.Subrouter, router.HandleFunc.
  cbn [fmap list_fmap mux.Match mux.template mux.methods mux.handler].
  rewrite !match_todos_route_segment, !(match_todo_route_numeric seg Hnum).
  rewrite !in_methods. by repeat case_bool_decide.
Qed.

Lemma Match_todos method :
  mux.Match router.SetupRouter method "/api/v1/todos" false =
    if bool_decide (method = "GET")
    then mux.Matched handlers.GetAllTodos ∅
    else if bool_decide (method = "POST")
    then mux.Matched handlers.CreateTodo ∅
    else mux.ErrMethodMismatch.
Proof.
  unfold router.SetupRouter, mux.Subrouter, router.HandleFunc.
  cbn [fmap list_fmap mux.Match mux.template mux.methods mux.handler].
  change (mux.match_template [mux.Lit "/api/v1"; mux.Lit "/todos"]
            "/api/v1/todos") with (Some (∅ : gmap string string)).
  change (mux.match_template
            [mux.Lit "/api/v1"; mux.Lit "/todos/"; mux.Digits "id"]
            "/api/v1/todos") with (@None (gmap string string)).
  rewrite !in_methods. by repeat case_bool_decide.
Qed.

Lemma SetupRouter_methods r :
  r ∈ router.SetupRouter →
  (mux.methods r = ["GET"] ∧ mux.handler r = handlers.GetAllTodos) ∨
  (mux.methods r = ["GET"] ∧ mux.handler r = handlers.GetTodo) ∨
  (mux.methods r = ["POST"] ∧ mux.handler r = handlers.CreateTodo) ∨
  (mux.methods r = ["PUT"] ∧ mux.handler r = handlers.UpdateTodo) ∨
  (mux.methods r = ["DELETE"] ∧ mux.handler r = handlers.DeleteTodo).
Proof.
  unfold router.SetupRouter, mux.Subrouter, router.HandleFunc. simpl.
  intros Hin. repeat (apply elem_of_cons in Hin as [->|Hin]); simpl; auto 10.
  by apply elem_of_nil in Hin.
Qed.

Lemma GetAllTodos_reads d e vars r : fst (handlers.GetAllTodos d e vars r) = d.
Proof.
  unfold handlers.GetAllTodos, GetAll. destruct (fault1 e); [done|].
  by destruct (scan_rows _ _).
Qed.

Lemma GetTodo_reads d e vars r : fst (handlers.GetTodo d e vars r) = d.
Proof.
  unfold handlers.GetTodo, GetByID.
  destruct (strconv.ParseInt _) as [id [err|]]; [done|].
  destruct (fault1 e); [done|]. destruct (select_by_id d id); [|done].
  by destruct (Scan _).
Qed.

(** X1. A request for /api/v1/todos/ followed by a non-empty string of
    digits is served by GetTodo under GET, by UpdateTodo under PUT and by
    DeleteTodo under DELETE, each with that string as the id variable; under
    any other method the router answers 405 and the table is not touched. *)
Theorem ServeHTTP_todo_path d e method seg body :
  numeric seg = true →
  let r := mkRequest method (todo_path seg) body in
  router.ServeHTTP d e r =
    if bool_decide (method = "GET") then handlers.GetTodo d e (id_var seg) r
    else if bool_decide (method = "PUT")
    then handlers.UpdateTodo d e (id_var seg) r
    else if bool_decide (method = "DELETE")
    then handlers.DeleteTodo d e (id_var seg) r
    else (d, mkResponse StatusMethodNotAllowed EmptyString NoBody).
Proof.
  intros Hnum r. unfold router.ServeHTTP. cbn [URL_Path Method r].
  rewrite bool_decide_eq_true_2 by by apply cleanPath_todo_path.
  rewrite (Match_todo_path method seg Hnum). by repeat case_bool_decide.
Qed.

Lemma ServeHTTP_todo_path_witness :
  numeric "2" = true ∧
  router.ServeHTTP (init_sql 7) (no_fault 8 9)
    (mkRequest "PATCH" (todo_path "2") None)
  = (init_sql 7, mkResponse StatusMethodNotAllowed EmptyString NoBody) ∧
  router.ServeHTTP (init_sql 7) (no_fault 8 9)
    (mkRequest "DELETE" (todo_path "2") None)
  = handlers.DeleteTodo (init_sql 7) (no_fault 8 9) (id_var "2")
      (mkRequest "DELETE" (todo_path "2") None).
Proof.
  split; [reflexivity|]. split.
  - exact (ServeHTTP_todo_path (init_sql 7) (no_fault 8 9) "PATCH" "2" None
             eq_refl).
  - exact (ServeHTTP_todo_path (init_sql 7) (no_fault 8 9) "DELETE" "2" None
             eq_refl).
Defined.

(** X2. A request for /api/v1/todos is served by GetAllTodos under GET and
    by CreateTodo under POST, with no route variable; under any other method
    the router answers 405 and the table is not touched. *)
Theorem ServeHTTP_todos d e method body :
  router.ServeHTTP d e (mkRequest method "/api/v1/todos" body) =
    if bool_decide (method = "GET")
    then handlers.GetAllTodos d e ∅ (mkRequest method "/api/v1/todos" body)
    else if bool_decide (method = "POST")
    then handlers.CreateTodo d e ∅ (mkRequest method "/api/v1/todos" body)
    else (d, mkResponse StatusMethodNotAllowed EmptyString NoBody).
Proof.
  unfold router.ServeHTTP. cbn [URL_Path Method].
  change (mux.cleanPath "/api/v1/todos") with "/api/v1/todos".
  rewrite bool_decide_eq_true_2 by done.
  rewrite (Match_todos method). by repeat case_bool_decide.
Qed.

(** X3. A GET request never changes the table, whatever its path, whatever
    the table holds and whether or not the round trip is refused. *)
Theorem GET_leaves_table d e r :
  Method r = "GET" → fst (router.ServeHTTP d e r) = d.
Proof.
  intros Hget. unfold router.ServeHTTP. case_bool_decide; [|done].
  destruct (mux.Match _ _ _ _) as [h vars| |] eqn:HM; [|done|done].
  apply Match_Matched in HM as (rt & Hin & _ & Hmeth & <-).
  rewrite Hget in Hmeth.
  destruct (SetupRouter_methods rt Hin)
    as [[Hm ->]|[[Hm ->]|[[Hm _]|[[Hm _]|[Hm _]]]]];
    rewrite Hm in Hmeth; try (by apply list_elem_of_singleton in Hmeth).
  - apply GetAllTodos_reads.
  - apply GetTodo_reads.
Qed.

Lemma GET_leaves_table_witness :
  Method (mkRequest "GET" (todo_path "2") None) = "GET" ∧
  fst (router.ServeHTTP (init_sql 7) (no_fault 8 9)
         (mkRequest "GET" (todo_path "2") None)) = init_sql 7.
Proof.
  split; [reflexivity|].
  exact (GET_leaves_table (init_sql 7) (no_fault 8 9)
           (mkRequest "GET" (todo_path "2") None) eq_refl).
Defined.

Lemma ServeHTTP_GET_todo d e seg body :
  numeric seg = true →
  router.ServeHTTP d e (mkRequest "GET" (todo_path seg) body)
  = handlers.GetTodo d e (id_var seg) (mkRequest "GET" (todo_path seg) body).
Proof.
  intros Hnum. unfold router.ServeHTTP. cbn [URL_Path Method].
  rewrite bool_decide_eq_true_2 by by apply cleanPath_todo_path.
  by rewrite (Match_todo_path "GET" seg Hnum).
Qed.

Lemma ParseInt_id seg :
  numeric seg = true → decimal seg < 2 ^ 63 →
  strconv.ParseInt (mux.Vars (id_var seg) "id") = (decimal seg, None).
Proof.
  intros Hnum Hfit. unfold mux.Vars, id_var. rewrite lookup_singleton_eq.
  simpl. rewrite (ParseInt_numeric seg Hnum).
  by rewrite (proj2 (Z.ltb_lt _ _) Hfit).
Qed.

(** ** Decoding the request bodies *)

Lemma store_all_false {A} (store : A → string * json.value → option A)
    fields req :
  json.store_all store fields req false = None.
Proof.
  revert req. induction fields as [|kv fields IH]; simpl; [done|].
  intros req. by destruct (store req kv).
Qed.

Lemma store_all_rejects {A} (store : A → string * json.value → option A)
    fields req ok kv :
  kv ∈ fields → (∀ req', store req' kv = None) →
  json.store_all store fields req ok = None.
Proof.
  intros Hin Hkv. revert req ok.
  induction fields as [|kv' fields IH]; intros req ok.
  { by apply elem_of_nil in Hin. }
  simpl. apply elem_of_cons in Hin as [<-|Hin].
  - rewrite Hkv. apply store_all_false.
  - destruct (store req kv'); by apply IH.
Qed.

Lemma key_is_exclusive k :
  (json.key_is "title" k = true → json.key_is "description" k = false
                                  ∧ json.key_is "completed" k = false) ∧
  (json.key_is "description" k = true → json.key_is "title" k = false
                                        ∧ json.key_is "completed" k = false).
Proof.
  unfold json.key_is.
  split; intros ->%bool_decide_eq_true; split; by apply bool_decide_eq_false_2.
Qed.

Lemma ill_typed_rejected kv req :
  ill_typed kv = true → json.store_update req kv = None.
Proof.
  destruct kv as [k v], req as [t d c]. unfold ill_typed, json.store_update.
  destruct (key_is_exclusive k) as [Ht Hd].
  destruct (json.key_is "title" k) eqn:Hkt.
  { destruct (Ht eq_refl) as [-> ->]. by destruct v. }
  destruct (json.key_is "description" k) eqn:Hkd.
  { destruct (Hd eq_refl) as [_ ->]. by destruct v. }
  destruct (json.key_is "completed" k); [|done]. by destruct v.
Qed.



(** A member named with a long s is a description member, for both
    requests; in the update it replaces the description. *)
Lemma long_s_is_description :
  json.key_is "description" long_s_description = true ∧
  json.Decode json.store_update UpdateTodoRequest.zero
    (Some (json.Object [(long_s_description, json.String "long s")]))
  = Some (UpdateTodoRequest.mk None (Some "long s") None) ∧
  json.Decode json.store_create CreateTodoRequest.zero
    (Some (json.Object [("title", json.String "t");
                        (long_s_description, json.String "kept")]))
  = Some (CreateTodoRequest.mk "t" "kept") ∧
  snd (handlers.UpdateTodo (init_sql 7) (no_fault 8 9) (id_var "3")
         (mkRequest "PUT" (todo_path "3")
            (Some (json.Object [(long_s_description, json.String "long s")]))))
  = handlers.respondWithJSON StatusOK
      (json.of_Todo (Todo.mk 3 "Learn Docker" "long s" false 7 9 None)).
Proof. repeat split; by vm_compute. Qed.



(** X5. An update request in whose JSON object some member names one of
    title, description, completed (in any letter case) but carries a value
    of another type than string, respectively boolean, or null, is answered
    400 "Invalid request payload" even when every other member is well
    formed; the table is not touched. *)
Theorem UpdateTodo_ill_typed_member d e vars r id fields kv :
  strconv.ParseInt (mux.Vars vars "id") = (id, None) →
  Body r = Some (json.Object fields) →
  kv ∈ fields → ill_typed kv = true →
  handlers.UpdateTodo d e vars r
    = (d, Error (Text "Invalid request payload") StatusBadRequest).
Proof.
  intros Hp Hb Hin Hkv. unfold handlers.UpdateTodo. rewrite Hp, Hb. simpl.
  rewrite (store_all_rejects json.store_update fields _ true kv Hin); [done|].
  intros req. by apply ill_typed_rejected.
Qed.

Lemma UpdateTodo_ill_typed_member_witness :
  handlers.UpdateTodo (init_sql 7) (no_fault 8 9) (id_var "2")
    (mkRequest "PUT" (todo_path "2")
       (Some (json.Object [("title", json.String "ok");
                           ("Completed", json.String "yes")])))
  = (init_sql 7, Error (Text "Invalid request payload") StatusBadRequest).
Proof.
  apply (UpdateTodo_ill_typed_member _ _ _ _ 2
           [("title", json.String "ok"); ("Completed", json.String "yes")]
           ("Completed", json.String "yes")); try reflexivity.
  apply elem_of_cons. right. apply elem_of_cons. by left.
Defined.

(** ** Requests one after the other *)

Lemma GetTodo_found d e seg r row t :
  numeric seg = true → decimal seg < 2 ^ 63 → fault1 e = None →
  todos d !! decimal seg = Some row → Scan (decimal seg, row) = Ok t →
  handlers.GetTodo d e (id_var seg) r
  = (d, handlers.respondWithJSON StatusOK (json.of_Todo t)).
Proof.
  intros Hnum Hfit He Hr Hs. unfold handlers.GetTodo.
  rewrite (ParseInt_id seg Hnum Hfit).
  by rewrite (GetByID_found d e _ row t He Hr Hs).
Qed.

Lemma GetTodo_missing d e seg r :
  numeric seg = true → decimal seg < 2 ^ 63 → fault1 e = None →
  todos d !! decimal seg = None →
  handlers.GetTodo d e (id_var seg) r
  = (d, Error (Text "Todo not found") StatusNotFound).
Proof.
  intros Hnum Hfit He Hr. unfold handlers.GetTodo.
  rewrite (ParseInt_id seg Hnum Hfit).
  by rewrite (GetByID_missing d e _ He Hr).
Qed.

(** X6. A create request with a non-empty title, on a table the application
    can be looking at and with the round trip not refused, is answered 201
    with the JSON of the new todo; a GET of /api/v1/todos/ followed by the
    decimal digits of its id, sent next, is answered 200 with the same JSON,
    unless its round trip is refused. *)
Theorem CreateTodo_then_GET d e vars r req :
  reachable d → fault1 e = None →
  json.Decode json.store_create CreateTodoRequest.zero (Body r) = Some req →
  CreateTodoRequest.Title req ≠ EmptyString →
  ∃ d' t,
    handlers.CreateTodo d e vars r
      = (d', handlers.respondWithJSON StatusCreated (json.of_Todo t)) ∧
    Create d e req = (d', Ok t) ∧
    ∀ e' seg body,
      fault1 e' = None → numeric seg = true →
      decimal seg = Todo.ID t → Todo.ID t < 2 ^ 63 →
      router.ServeHTTP d' e' (mkRequest "GET" (todo_path seg) body)
        = (d', handlers.respondWithJSON StatusOK (json.of_Todo t)).
Proof.
  intros Hd He Hdec Htitle.
  destruct (Create_fresh d e req He (reachable_fresh d Hd)) as (d' & t & Hc).
  exists d', t. split; [|split; [done|]].
  - unfold handlers.CreateTodo. rewrite Hdec.
    rewrite bool_decide_eq_false_2 by done. by rewrite Hc.
  - intros e' seg body He' Hnum Hseg Hfit.
    rewrite (ServeHTTP_GET_todo d' e' seg body Hnum).
    apply Create_Ok in Hc as (_ & _ & -> & ->). simpl in Hseg, Hfit.
    eapply GetTodo_found; [done|lia|done| |].
    + rewrite Hseg. simpl. apply lookup_insert_eq.
    + by rewrite Hseg.
Qed.

Lemma CreateTodo_then_GET_witness :
  ∃ d' t,
    handlers.CreateTodo (init_sql 7) (no_fault 8 9) ∅
      (mkRequest "POST" "/api/v1/todos"
         (Some (json.Object [("title", json.String "Buy groceries")])))
      = (d', handlers.respondWithJSON StatusCreated (json.of_Todo t)) ∧
    Todo.ID t = 4 ∧
    router.ServeHTTP d' (no_fault 10 11) (mkRequest "GET" (todo_path "4") None)
      = (d', handlers.respondWithJSON StatusOK (json.of_Todo t)).
Proof.
  destruct (CreateTodo_then_GET (init_sql 7) (no_fault 8 9) ∅
              (mkRequest "POST" "/api/v1/todos"
                 (Some (json.Object [("title", json.String "Buy groceries")])))
              (CreateTodoRequest.mk "Buy groceries" EmptyString)
              (reach_init 7) eq_refl eq_refl ltac:(discriminate))
    as (d' & t & Hpost & Hc & Hget).
  exists d', t. split; [exact Hpost|].
  assert (Todo.ID t = 4) as Hid.
  { vm_compute in Hc. by injection Hc as _ <-. }
  split; [exact Hid|].
  apply (Hget (no_fault 10 11) "4" None eq_refl eq_refl).
  - by rewrite Hid.
  - rewrite Hid. reflexivity.
Defined.

(** X7. On a table the application can be looking at and with the round
    trip not refused, a GET of /api/v1/todos/ followed by digits whose value
    fits a signed 64-bit integer is answered 404 "Todo not found" when no
    row has that value as id, and 200 with the JSON of the row's todo when
    one has; no other answer is possible then. *)
Theorem GET_todo_found_or_not d e seg body :
  reachable d → fault1 e = None →
  numeric seg = true → decimal seg < 2 ^ 63 →
  (todos d !! decimal seg = None →
   router.ServeHTTP d e (mkRequest "GET" (todo_path seg) body)
     = (d, Error (Text "Todo not found") StatusNotFound)) ∧
  (∀ row, todos d !! decimal seg = Some row →
     ∃ t, Scan (decimal seg, row) = Ok t ∧
          router.ServeHTTP d e (mkRequest "GET" (todo_path seg) body)
            = (d, handlers.respondWithJSON StatusOK (json.of_Todo t))).
Proof.
  intros Hd He Hnum Hfit. rewrite (ServeHTTP_GET_todo d e seg body Hnum).
  split.
  - intros Hr. by apply GetTodo_missing.
  - intros row Hr.
    destruct (db_ok_Scan d _ row (reachable_ok d Hd) Hr) as [t Ht].
    exists t. split; [done|]. by eapply GetTodo_found.
Qed.

Lemma GET_todo_found_or_not_witness :
  router.ServeHTTP (init_sql 7) (no_fault 8 9)
    (mkRequest "GET" (todo_path "0005") None)
  = (init_sql 7, Error (Text "Todo not found") StatusNotFound).
Proof.
  apply (GET_todo_found_or_not (init_sql 7) (no_fault 8 9) "0005" None
           (reach_init 7) eq_refl eq_refl).
  - reflexivity.
  - reflexivity.
Defined.

(** ** More on Update *)

Lemma reconciled_again e1 e2 cur req :
  reconciled e2 (reconciled e1 cur req) req
  = touched (NOW e2) (reconciled e1 cur req).
Proof.
  unfold reconciled, reconciled_completion, touched.
  destruct req as [[title|] [descr|] [[]|]], cur as [? ? ? [] ? ? ?];
    reflexivity.
Qed.

(** X8. Sending the same update twice changes nothing the second time but
    updated_at: when an Update returned a todo, the same Update run again
    with no round trip refused returns that todo with updated_at set from the
    database clock of the second write; in particular completed_at is not
    stamped again. *)
Theorem Update_twice d e1 e2 id req d1 t1 :
  Update d e1 id req = (d1, Ok (Some t1)) →
  fault1 e2 = None → fault2 e2 = None →
  ∃ d2, Update d1 e2 id req = (d2, Ok (Some (touched (NOW e2) t1))).
Proof.
  intros (r & cur & _ & _ & _ & Hs & -> & ->)%Update_Some He1 He2.
  pose proof (Scan_ID _ _ _ Hs) as Hid.
  eexists. rewrite <- reconciled_again.
  eapply Update_found; [done|done| |].
  - simpl. apply lookup_insert_eq.
  - by apply Scan_row_of.
Qed.

Lemma Update_twice_witness :
  ∃ d1 d2,
    Update (init_sql 7) (no_fault 8 9) 2
      (UpdateTodoRequest.mk None None (Some true))
    = (d1, Ok (Some (Todo.mk 2 "Build a REST API"
                       "Create a Todo API using Go and PostgreSQL"
                       true 7 9 (Some 8)))) ∧
    Update d1 (no_fault 20 21) 2 (UpdateTodoRequest.mk None None (Some true))
    = (d2, Ok (Some (Todo.mk 2 "Build a REST API"
                       "Create a Todo API using Go and PostgreSQL"
                       true 7 21 (Some 8)))).
Proof.
  assert (Update (init_sql 7) (no_fault 8 9) 2
            (UpdateTodoRequest.mk None None (Some true))
          = (fst (Update (init_sql 7) (no_fault 8 9) 2
                    (UpdateTodoRequest.mk None None (Some true))),
             Ok (Some (Todo.mk 2 "Build a REST API"
                         "Create a Todo API using Go and PostgreSQL"
                         true 7 9 (Some 8))))) as Hu
    by (vm_compute; reflexivity).
  destruct (Update_twice _ _ (no_fault 20 21) _ _ _ _ Hu eq_refl eq_refl)
    as [d2 Hu2].
  eexists _, d2. split; [exact Hu|exact Hu2].
Defined.

(** X9. Update is no upsert: whatever its outcome, the table has the same
    ids after it as before, the sequence is where it was, every row under
    another id is as it was, and the row under the id, if any, has the
    created_at it had. *)
Theorem Update_keeps_rows d e id req :
  dom (todos (fst (Update d e id req))) = dom (todos d) ∧
  todos_id_seq (fst (Update d e id req)) = todos_id_seq d ∧
  (∀ j, j ≠ id → todos (fst (Update d e id req)) !! j = todos d !! j) ∧
  (∀ r', todos (fst (Update d e id req)) !! id = Some r' →
         ∃ r, todos d !! id = Some r ∧ created_at r' = created_at r).
Proof.
  destruct (Update_cases d e id req) as [(res & -> & _)|
    (r & cur & _ & _ & Hr & Hs & ->)]; simpl.
  { repeat split; eauto. }
  split; [|split; [done|split]].
  - apply dom_insert_lookup_L. by exists r.
  - intros j Hj. by rewrite lookup_insert_ne.
  - intros r'. rewrite lookup_insert_eq. intros [= <-]. exists r.
    split; [done|]. by apply Scan_Ok in Hs as (_ & _ & ->).
Qed.

(** ** The ids Create hands out *)

Lemma run_seq c d e : todos_id_seq d <= todos_id_seq (run c d e).
Proof.
  destruct (run_cases c d e) as [->|[->|[(req & _ & ->)|
    [(id & r & cur & req & _ & _ & ->)|(id & ->)]]]]; simpl; lia.
Qed.

Lemma runs_to_seq d d' : runs_to d d' → todos_id_seq d <= todos_id_seq d'.
Proof.
  induction 1 as [|d d' c e _ IH]; [lia|].
  pose proof (run_seq c d' e). lia.
Qed.

(** X10. Create never hands out an id twice: of two calls of Create that
    returned a todo, with any calls in between, deletions included, the
    later one returned the greater id. *)
Theorem Create_ids_increase d e1 req1 d1 t1 d2 e2 req2 d3 t2 :
  Create d e1 req1 = (d1, Ok t1) →
  runs_to d1 d2 →
  Create d2 e2 req2 = (d3, Ok t2) →
  Todo.ID t1 < Todo.ID t2.
Proof.
  intros (_ & _ & -> & ->)%Create_Ok Hruns%runs_to_seq
    (_ & _ & -> & _)%Create_Ok.
  simpl in *. lia.
Qed.

Lemma Create_ids_increase_witness :
  ∃ d1 d3,
    Create (init_sql 7) (no_fault 8 9) (CreateTodoRequest.mk "a" EmptyString)
      = (d1, Ok (Todo.mk 4 "a" EmptyString false 9 9 None)) ∧
    Create (run (CallDelete 4) d1 (no_fault 10 11)) (no_fault 12 13)
      (CreateTodoRequest.mk "b" EmptyString)
      = (d3, Ok (Todo.mk 5 "b" EmptyString false 13 13 None)) ∧
    Todo.ID (Todo.mk 4 "a" EmptyString false 9 9 None)
      < Todo.ID (Todo.mk 5 "b" EmptyString false 13 13 None).
Proof.
  assert (Create (init_sql 7) (no_fault 8 9)
            (CreateTodoRequest.mk "a" EmptyString)
          = (fst (Create (init_sql 7) (no_fault 8 9)
                    (CreateTodoRequest.mk "a" EmptyString)),
             Ok (Todo.mk 4 "a" EmptyString false 9 9 None))) as H1
    by (vm_compute; reflexivity).
  assert (Create
            (run (CallDelete 4)
               (fst (Create (init_sql 7) (no_fault 8 9)
                       (CreateTodoRequest.mk "a" EmptyString)))
               (no_fault 10 11))
            (no_fault 12 13) (CreateTodoRequest.mk "b" EmptyString)
          = (fst (Create
                    (run (CallDelete 4)
                       (fst (Create (init_sql 7) (no_fault 8 9)
                               (CreateTodoRequest.mk "a" EmptyString)))
                       (no_fault 10 11))
                    (no_fault 12 13) (CreateTodoRequest.mk "b" EmptyString)),
             Ok (Todo.mk 5 "b" EmptyString false 13 13 None))) as H2
    by (vm_compute; reflexivity).
  eexists _, _. split; [exact H1|]. split; [exact H2|].
  exact (Create_ids_increase _ _ _ _ _ _ _ _ _ _ H1
           (runs_step _ _ (CallDelete 4) (no_fault 10 11) (runs_refl _)) H2).
Defined.

(** ** More on GetAll *)

Lemma Forall2_Scan_ids rows (l : list Todo.t) :
  Forall2 (λ kr t, Scan kr = Ok t) rows l → Todo.ID <$> l = rows.*1.
Proof.
  induction 1 as [|[id r] t rows l Hs _ IH]; [done|].
  rewrite !fmap_cons, IH. simpl. by rewrite (Scan_ID id r t Hs).
Qed.

(** The todos GetAll returns are those of the rows of the table. *)
Lemma GetAll_elem d e ts t :
  GetAll d e = (d, Ok ts) →
  t ∈ elems ts ↔
  ∃ r, todos d !! Todo.ID t = Some r ∧ Scan (Todo.ID t, r) = Ok t.
Proof.
  intros (rows & Hperm & Hscan & _ & _)%GetAll_Ok. split.
  - intros (i & Hi)%list_elem_of_lookup.
    destruct (Forall2_lookup_r _ _ _ _ _ Hscan Hi) as ([id r] & Hkr & Hs).
    pose proof (Scan_ID id r t Hs) as <-. exists r. split; [|done].
    apply elem_of_map_to_list. rewrite <- Hperm.
    apply list_elem_of_lookup. by exists i.
  - intros (r & Hr%elem_of_map_to_list & Hs). rewrite <- Hperm in Hr.
    apply list_elem_of_lookup in Hr as (i & Hi).
    destruct (Forall2_lookup_l _ _ _ _ _ Hscan Hi) as (t' & Ht' & Hs').
    assert (t' = t) as -> by congruence.
    apply list_elem_of_lookup. by exists i.
Qed.

(** X11. When GetAll returns, it returns one todo for each row of the
    table and no other: a todo is in the result exactly when the row under
    its id scans to it, the result is as long as the table is large, and no
    id occurs twice. *)
Theorem GetAll_lists_table d e ts :
  GetAll d e = (d, Ok ts) →
  (∀ t, t ∈ elems ts ↔
        ∃ r, todos d !! Todo.ID t = Some r ∧ Scan (Todo.ID t, r) = Ok t) ∧
  length (elems ts) = size (todos d) ∧
  NoDup (Todo.ID <$> elems ts).
Proof.
  intros Hget. split; [intros t; by apply (GetAll_elem d e)|].
  apply GetAll_Ok in Hget as (rows & Hperm & Hscan & _ & _).
  split.
  - rewrite <- (Forall2_length _ _ _ Hscan), Hperm.
    apply length_map_to_list.
  - rewrite (Forall2_Scan_ids _ _ Hscan), Hperm.
    apply NoDup_fst_map_to_list.
Qed.

Lemma GetAll_lists_table_witness :
  ∃ ts, GetAll (init_sql 7) (no_fault 8 9) = (init_sql 7, Ok ts) ∧
        length (elems ts) = 3%nat ∧ NoDup (Todo.ID <$> elems ts).
Proof.
  destruct (GetAll_total (init_sql 7) (no_fault 8 9)
              (init_sql_ok 7) eq_refl) as [ts Hts].
  exists ts. split; [exact Hts|].
  destruct (GetAll_lists_table _ _ _ Hts) as (_ & Hlen & Hnodup).
  split; [|exact Hnodup]. rewrite Hlen. reflexivity.
Defined.

(** X12. A todo that Create returned is in what GetAll returns next, and
    after a Delete that succeeded GetAll returns no todo with the deleted
    id. *)
Theorem GetAll_after_Create_and_Delete d e e' d' ts :
  GetAll d' e' = (d', Ok ts) →
  (∀ req t, Create d e req = (d', Ok t) → t ∈ elems ts) ∧
  (∀ id, Delete d e id = (d', None) →
         ∀ t, t ∈ elems ts → Todo.ID t ≠ id).
Proof.
  intros Hget. split.
  - intros req t (_ & _ & -> & ->)%Create_Ok.
    apply (GetAll_elem _ _ _ _ Hget). simpl. eexists.
    split; [apply lookup_insert_eq|reflexivity].
  - intros id Hdel t (r & Hr & _)%(GetAll_elem _ _ _ _ Hget) <-.
    unfold Delete in Hdel. destruct (fault1 e); [done|].
    injection Hdel as <-. simpl in Hr. by rewrite lookup_delete_eq in Hr.
Qed.

Lemma GetAll_after_Create_and_Delete_witness :
  ∃ ts,
    GetAll (delete_todo (init_sql 7) 2) (no_fault 10 11)
      = (delete_todo (init_sql 7) 2, Ok ts) ∧
    ∀ t, t ∈ elems ts → Todo.ID t ≠ 2.
Proof.
  assert (db_ok (delete_todo (init_sql 7) 2)) as Hok
    by apply (run_ok (CallDelete 2) (init_sql 7) (no_fault 8 9)),
             init_sql_ok.
  destruct (GetAll_total _ (no_fault 10 11) Hok eq_refl) as [ts Hts].
  exists ts. split; [exact Hts|].
  destruct (GetAll_after_Create_and_Delete (init_sql 7) (no_fault 8 9)
              (no_fault 10 11) _ ts Hts) as [_ H].
  exact (H 2 eq_refl).
Defined.

Lemma Scan_Err kr err : Scan kr = Err err → ∃ col, err = ErrScanNull col.
Proof.
  destruct kr as [id r]. unfold Scan.
  destruct (description r); [destruct (completed r); [done|]|];
    intros [= <-]; eauto.
Qed.

Lemma scan_rows_Err rows acc kr :
  kr ∈ rows → (∀ t, Scan kr ≠ Ok t) →
  ∃ col, scan_rows rows acc = Err (ErrScanNull col).
Proof.
  intros Hin Hkr. revert acc.
  induction rows as [|kr' rows IH]; intros acc.
  { by apply elem_of_nil in Hin. }
  simpl. destruct (Scan kr') as [t|err] eqn:Hs.
  - apply elem_of_cons in Hin as [->|Hin]; [by destruct (Hkr t)|by apply IH].
  - apply Scan_Err in Hs as [col ->]. by exists col.
Qed.

(** X13. The table lets description and completed be NULL, and the code
    scans them into a string and a bool: a single row with a NULL in one of
    them makes GetAll fail with the scan error, so that the list request is
    answered 500 although its round trip was not refused, and so is the
    request for that row. *)
Theorem NULL_breaks_reads d e id r vars req :
  fault1 e = None → todos d !! id = Some r →
  description r = None ∨ completed r = None →
  ∃ col col',
    GetAll d e = (d, Err (ErrScanNull col)) ∧
    handlers.GetAllTodos d e vars req
      = (d, Error (ErrorText (ErrScanNull col)) StatusInternalServerError) ∧
    GetByID d e id = (d, Err (ErrScanNull col')).
Proof.
  intros He Hr Hnull.
  assert (∀ t, Scan (id, r) ≠ Ok t) as Hbad.
  { intros t (Hd & Hc & _)%Scan_Ok. destruct Hnull; congruence. }
  destruct (scan_rows_Err (select_all d) None (id, r)) as [col Hcol];
    [|done|].
  { unfold select_all. rewrite merge_sort_Permutation.
    by apply elem_of_map_to_list. }
  destruct (Scan (id, r)) as [t|err] eqn:Hs; [by destruct (Hbad t)|].
  destruct (Scan_Err _ _ Hs) as [col' ->].
  exists col, col'. unfold handlers.GetAllTodos, GetAll, GetByID, select_by_id.
  by rewrite He, Hcol, Hr, Hs.
Qed.

Lemma NULL_breaks_reads_witness :
  ∃ col col',
    GetAll by_hand (no_fault 8 9) = (by_hand, Err (ErrScanNull col)) ∧
    GetByID by_hand (no_fault 8 9) 1 = (by_hand, Err (ErrScanNull col')).
Proof.
  destruct (NULL_breaks_reads by_hand (no_fault 8 9) 1
              (mkrow "by hand" None (Some false) 7 7 None)
              ∅ (mkRequest "GET" "/api/v1/todos" None) eq_refl eq_refl
              (or_introl eq_refl))
    as (col & col' & H1 & _ & H2).
  exists col, col'. split; [exact H1|exact H2].
Defined.

(** ** What the JSON of a todo shows *)

(** X14. In the JSON of a todo read from a table the application can be
    looking at, the member completed_at is present exactly when completed is
    true: a completed todo always shows its completion time and one that is
    not completed never shows one. *)
Theorem completed_at_member d e id t :
  reachable d → GetByID d e id = (d, Ok (Some t)) →
  member "completed" (json.of_Todo t) = Some (json.Bool (Todo.Completed t)) ∧
  (Todo.Completed t = true →
   ∃ at_, member "completed_at" (json.of_Todo t) = Some (json.Time at_)) ∧
  (Todo.Completed t = false →
   member "completed_at" (json.of_Todo t) = None).
Proof.
  intros Hd%reachable_ok (r & Hr & Hs)%GetByID_Some.
  destruct (Hd id r Hr) as (_ & _ & _ & Hc).
  pose proof (Scan_complete id r t Hs Hc) as [H1 H2].
  split; [reflexivity|]. unfold json.of_Todo, member.
  split; intros Hcompleted.
  - destruct (H2 Hcompleted) as [at_ ->]. by exists at_.
  - destruct (Todo.CompletedAt t) as [at_|]; [|reflexivity].
    rewrite H1 in Hcompleted by eauto. discriminate.
Qed.

Lemma completed_at_member_witness :
  (∃ at_,
     member "completed_at"
       (json.of_Todo (Todo.mk 1 "Learn Go"
                        "Study Go programming language basics"
                        true 7 7 (Some 7))) = Some (json.Time at_)) ∧
  member "completed_at"
    (json.of_Todo (Todo.mk 3 "Learn Docker"
                     "Learn how to containerize applications"
                     false 7 7 None)) = None.
Proof.
  split.
  - destruct (completed_at_member (init_sql 7) (no_fault 8 9) 1
                (Todo.mk 1 "Learn Go" "Study Go programming language basics"
                   true 7 7 (Some 7)) (reach_init 7) eq_refl)
      as (_ & H & _).
    exact (H eq_refl).
  - destruct (completed_at_member (init_sql 7) (no_fault 8 9) 3
                (Todo.mk 3 "Learn Docker"
                   "Learn how to containerize applications" false 7 7 None)
                (reach_init 7) eq_refl)
      as (_ & _ & H).
    exact (H eq_refl).
Defined.

(** ** Timestamps under one clock *)

(** X15. When the application and the database read one clock that never
    runs backwards, every row of the table has created_at no later than
    updated_at, no timestamp later than the latest reading, and a completion
    time, if any, between created_at and updated_at. *)
Theorem one_clock_timestamps now d :
  one_clock now d →
  map_Forall (λ _ r, created_at r <= updated_at r ∧ updated_at r <= now ∧
                     ∀ at_, completed_at r = Some at_ →
                            created_at r <= at_ ∧ at_ <= updated_at r)
    (todos d).
Proof.
  induction 1 as [now|now d c e _ IH Happ Hdb].
  { unfold init_sql. simpl.
    repeat apply map_Forall_insert_2; try apply map_Forall_empty; simpl;
      (split; [lia|split; [lia|]]); intros at_ [= <-]; lia. }
  assert (map_Forall
            (λ _ r, created_at r <= updated_at r ∧ updated_at r <= NOW e ∧
                    ∀ at_, completed_at r = Some at_ →
                           created_at r <= at_ ∧ at_ <= updated_at r)
            (todos d)) as IH'.
  { eapply map_Forall_impl; [exact IH|]. simpl.
    intros _ r (? & ? & ?). split; [done|]. split; [lia|done]. }
  destruct (run_cases c d e) as [->|[->|[(req & Hk & ->)|
    [(id & r & cur & req & Hr & Hs & ->)|(id & ->)]]]]; simpl; try done.
  - apply map_Forall_insert_2; [|done]. simpl.
    split; [lia|split; [lia|done]].
  - apply map_Forall_insert_2; [|done].
    destruct (IH id r Hr) as (H1 & H2 & H3).
    apply Scan_Ok in Hs as (_ & _ & ->).
    unfold row_of, reconciled, reconciled_completion. simpl.
    split; [lia|split; [lia|]]. intros at_.
    destruct (UpdateTodoRequest.Completed req) as [c'|];
      [case_bool_decide; [|destruct (Todo.Completed cur)]|]; simpl;
      intros Hat; try done; try (injection Hat as <-; lia);
      destruct (H3 at_ Hat); lia.
  - by apply map_Forall_delete.
Qed.

Lemma one_clock_timestamps_witness :
  one_clock 9
    (run (CallUpdate 2 (UpdateTodoRequest.mk None None (Some true)))
       (init_sql 7) (no_fault 8 9)) ∧
  7 <= 8 ∧ 8 <= 9 ∧ 7 <= 9.
Proof.
  assert (one_clock (NOW (no_fault 8 9))
            (run (CallUpdate 2 (UpdateTodoRequest.mk None None (Some true)))
               (init_sql 7) (no_fault 8 9))) as Hclock
    by (apply (one_clock_call 7); [apply one_clock_init|simpl; lia|simpl; lia]).
  split; [exact Hclock|].
  destruct (one_clock_timestamps _ _ Hclock 2
              (mkrow "Build a REST API"
                 (Some "Create a Todo API using Go and PostgreSQL")
                 (Some true) 7 9 (Some 8)) eq_refl) as (H1 & _ & H3).
  destruct (H3 8 eq_refl) as [H4 H5]. simpl in *. auto.
Defined.

(** ** Leading zeros *)

(** X16. The id of a path is read as a decimal number, so leading zeros do
    not matter: with a zero put in front of the digits, each of the three
    handlers of the id routes answers as it does without it. *)
Theorem leading_zero_same_todo d e seg r :
  numeric seg = true →
  handlers.GetTodo d e (id_var (String "0" seg)) r
    = handlers.GetTodo d e (id_var seg) r ∧
  handlers.UpdateTodo d e (id_var (String "0" seg)) r
    = handlers.UpdateTodo d e (id_var seg) r ∧
  handlers.DeleteTodo d e (id_var (String "0" seg)) r
    = handlers.DeleteTodo d e (id_var seg) r.
Proof.
  intros Hnum.
  assert (strconv.ParseInt (String "0" seg) = strconv.ParseInt seg) as Hp.
  { assert (numeric (String "0" seg) = true) as Hnum0.
    { destruct (numeric_inv seg Hnum) as (_ & _ & _ & _ & _ & Hs).
      unfold numeric. simpl. by rewrite Hs. }
    by rewrite (ParseInt_numeric _ Hnum0), (ParseInt_numeric _ Hnum). }
  unfold handlers.GetTodo, handlers.UpdateTodo, handlers.DeleteTodo,
    mux.Vars, id_var.
  rewrite !lookup_singleton_eq. cbn [default from_option id]. by rewrite Hp.
Qed.

Lemma leading_zero_same_todo_witness :
  numeric "2" = true ∧
  handlers.GetTodo (init_sql 7) (no_fault 8 9) (id_var "02")
    (mkRequest "GET" (todo_path "02") None)
  = handlers.GetTodo (init_sql 7) (no_fault 8 9) (id_var "2")
      (mkRequest "GET" (todo_path "02") None).
Proof.
  split; [reflexivity|].
  exact (proj1 (leading_zero_same_todo (init_sql 7) (no_fault 8 9) "2"
                  (mkRequest "GET" (todo_path "02") None) eq_refl)).
Defined.

(** ** The answers of the router *)

Lemma handler_answers d e vars r h :
  h = handlers.GetAllTodos ∨ h = handlers.GetTodo ∨ h = handlers.CreateTodo ∨
  h = handlers.UpdateTodo ∨ h = handlers.DeleteTodo →
  (Status (snd (h d e vars r)) ∈ [StatusOK; StatusCreated] ∧
   ContentType (snd (h d e vars r)) = "application/json" ∧
   ∃ v, Written (snd (h d e vars r)) = JSON v) ∨
  (Status (snd (h d e vars r)) ∈ [StatusBadRequest; StatusNotFound] ∧
   ContentType (snd (h d e vars r)) = "text/plain; charset=utf-8" ∧
   ∃ msg, Written (snd (h d e vars r)) = Text msg) ∨
  (Status (snd (h d e vars r)) = StatusInternalServerError ∧
   ContentType (snd (h d e vars r)) = "text/plain; charset=utf-8" ∧
   ∃ err, Written (snd (h d e vars r)) = ErrorText err) ∨
  (Status (snd (h d e vars r)) = StatusNoContent ∧
   ContentType (snd (h d e vars r)) = EmptyString ∧
   Written (snd (h d e vars r)) = NoBody).
Proof.
  assert (∀ v, let resp := handlers.respondWithJSON StatusOK v in
               Status resp ∈ [StatusOK; StatusCreated] ∧
               ContentType resp = "application/json" ∧
               ∃ v', Written resp = JSON v') as Hok.
  { intros v. split; [by left|]. split; [done|by exists v]. }
  assert (∀ v, let resp := handlers.respondWithJSON StatusCreated v in
               Status resp ∈ [StatusOK; StatusCreated] ∧
               ContentType resp = "application/json" ∧
               ∃ v', Written resp = JSON v') as Hcreated.
  { intros v. split; [by right; left|]. split; [done|by exists v]. }
  assert (∀ msg, let resp := Error (Text msg) StatusBadRequest in
                 Status resp ∈ [StatusBadRequest; StatusNotFound] ∧
                 ContentType resp = "text/plain; charset=utf-8" ∧
                 ∃ msg', Written resp = Text msg') as Hbad.
  { intros msg. split; [by left|]. split; [done|by exists msg]. }
  assert (∀ msg, let resp := Error (Text msg) StatusNotFound in
                 Status resp ∈ [StatusBadRequest; StatusNotFound] ∧
                 ContentType resp = "text/plain; charset=utf-8" ∧
                 ∃ msg', Written resp = Text msg') as Hmissing.
  { intros msg. split; [by right; left|]. split; [done|by exists msg]. }
  assert (∀ err, let resp := Error (ErrorText err) StatusInternalServerError in
                 Status resp = StatusInternalServerError ∧
                 ContentType resp = "text/plain; charset=utf-8" ∧
                 ∃ err', Written resp = ErrorText err') as Hfailed.
  { intros err. split; [done|]. split; [done|by exists err]. }
  intros [->|[->|[->|[->| ->]]]].
  - unfold handlers.GetAllTodos. destruct (GetAll d e) as [d' [ts|err]].
    + left. apply Hok.
    + right; right; left. apply Hfailed.
  - unfold handlers.GetTodo.
    destruct (strconv.ParseInt _) as [id [perr|]];
      [right; left; apply Hbad|].
    destruct (GetByID d e id) as [d' [[t|]|err]].
    + left. apply Hok.
    + right; left. apply Hmissing.
    + right; right; left. apply Hfailed.
  - unfold handlers.CreateTodo.
    destruct (json.Decode _ _ _) as [req|]; [|right; left; apply Hbad].
    case_bool_decide; [right; left; apply Hbad|].
    destruct (Create d e req) as [d' [t|err]].
    + left. apply Hcreated.
    + right; right; left. apply Hfailed.
  - unfold handlers.UpdateTodo.
    destruct (strconv.ParseInt _) as [id [perr|]];
      [right; left; apply Hbad|].
    destruct (json.Decode _ _ _) as [req|]; [|right; left; apply Hbad].
    destruct (Update d e id req) as [d' [[t|]|err]].
    + left. apply Hok.
    + right; left. apply Hmissing.
    + right; right; left. apply Hfailed.
  - unfold handlers.DeleteTodo.
    destruct (strconv.ParseInt _) as [id [perr|]];
      [right; left; apply Hbad|].
    destruct (Delete d e id) as [d' [err|]].
    + right; right; left. apply Hfailed.
    + right; right; right. done.
Qed.

(** X17. Every answer of the application is of one of four kinds: 200 or
    201 with content type application/json and a JSON body; 400 or 404 with
    a plain-text message; 500 with the plain text of the storage error; or
    204, or the router's own 301 or 405, with no body and no content type.
    An error is never answered in JSON and a success never in plain text. *)
Theorem answers_of_the_application d e r :
  let resp := snd (router.ServeHTTP d e r) in
  (Status resp ∈ [StatusOK; StatusCreated] ∧
   ContentType resp = "application/json" ∧ ∃ v, Written resp = JSON v) ∨
  (Status resp ∈ [StatusBadRequest; StatusNotFound] ∧
   ContentType resp = "text/plain; charset=utf-8" ∧
   ∃ msg, Written resp = Text msg) ∨
  (Status resp = StatusInternalServerError ∧
   ContentType resp = "text/plain; charset=utf-8" ∧
   ∃ err, Written resp = ErrorText err) ∨
  (Status resp ∈ [StatusNoContent; StatusMovedPermanently;
                  StatusMethodNotAllowed] ∧
   ContentType resp = EmptyString ∧ Written resp = NoBody).
Proof.
  unfold router.ServeHTTP. case_bool_decide.
  2: { right; right; right. split; [by right; left|done]. }
  destruct (mux.Match _ _ _ _) as [h vars| |] eqn:HM; simpl.
  - apply Match_Matched in HM as (rt & Hin & _ & _ & <-).
    destruct (handler_answers d e vars r (mux.handler rt))
      as [H'|[H'|[H'|(H1 & H2 & H3)]]].
    { destruct (SetupRouter_methods rt Hin)
        as [[_ ->]|[[_ ->]|[[_ ->]|[[_ ->]|[_ ->]]]]]; auto 10. }
    + by left.
    + by right; left.
    + by right; right; left.
    + right; right; right. rewrite H1. split; [by left|done].
  - right; right; right. split; [by right; right; left|done].
  - right; left. split; [by right; left|]. split; [done|by eexists].
Qed.

(** ** The configuration *)

Lemma getEnv_nonempty env key defaultValue :
  defaultValue ≠ EmptyString → config.getEnv env key defaultValue ≠ EmptyString.
Proof. intros Hdef. unfold config.getEnv. by case_bool_decide. Qed.

Lemma Getenv_godotenv environ dotenv key :
  config.Getenv (config.godotenv_Load environ dotenv) key
  = match environ !! key with
    | Some v => v
    | None => default EmptyString (dotenv ≫= (λ file, file !! key))
    end.
Proof.
  unfold config.Getenv, config.godotenv_Load.
  destruct dotenv as [file|]; simpl.
  - rewrite lookup_union. by destruct (environ !! key), (file !! key).
  - by destruct (environ !! key).
Qed.

Lemma getEnv_setting environ dotenv key defaultValue :
  config.getEnv (config.godotenv_Load environ dotenv) key defaultValue
  = setting environ dotenv key defaultValue.
Proof.
  unfold config.getEnv, setting. rewrite Getenv_godotenv.
  destruct (environ !! key) as [v|]; [done|].
  by destruct (dotenv ≫= _) as [v|].
Qed.

Lemma Load_Ok environ dotenv open_err ping_err cfg :
  config.Load environ dotenv open_err ping_err = Ok cfg →
  open_err = None ∧ ping_err = None ∧
  config.Config.Port cfg = setting environ dotenv "PORT" "8080" ∧
  config.Config.DBConfig cfg =
    config.DBConfig.mk (setting environ dotenv "DB_HOST" "localhost")
      (setting environ dotenv "DB_PORT" "5432")
      (setting environ dotenv "DB_USER" "postgres")
      (setting environ dotenv "DB_PASSWORD" "postgres")
      (setting environ dotenv "DB_NAME" "todo_db").
Proof.
  unfold config.Load, config.connectDB. rewrite <- !getEnv_setting.
  destruct open_err; [done|]. destruct ping_err; [done|].
  intros [= <-]. simpl. by unfold config.getEnv.
Qed.

(** X18. When Load returns a configuration, neither opening the database
    nor the ping failed, and each setting is what the environment of the
    process gives the variable, else what the .env file gives it, else the
    default; a variable the environment sets to the empty string gets the
    default, whatever the file says. *)
Theorem Load_settings environ dotenv open_err ping_err cfg :
  config.Load environ dotenv open_err ping_err = Ok cfg →
  open_err = None ∧ ping_err = None ∧
  config.Config.Port cfg = setting environ dotenv "PORT" "8080" ∧
  config.DBConfig.Host (config.Config.DBConfig cfg)
    = setting environ dotenv "DB_HOST" "localhost" ∧
  config.DBConfig.Port (config.Config.DBConfig cfg)
    = setting environ dotenv "DB_PORT" "5432" ∧
  config.DBConfig.User (config.Config.DBConfig cfg)
    = setting environ dotenv "DB_USER" "postgres" ∧
  config.DBConfig.Password (config.Config.DBConfig cfg)
    = setting environ dotenv "DB_PASSWORD" "postgres" ∧
  config.DBConfig.DBName (config.Config.DBConfig cfg)
    = setting environ dotenv "DB_NAME" "todo_db" ∧
  (∀ key defaultValue,
     environ !! key = Some EmptyString →
     setting environ dotenv key defaultValue = defaultValue).
Proof.
  intros (-> & -> & -> & ->)%Load_Ok. simpl. repeat split; try done.
  intros key defaultValue Hset. unfold setting. by rewrite Hset.
Qed.

Lemma Load_settings_witness :
  ∃ cfg,
    config.Load (<["DB_PASSWORD" := EmptyString]> (<["PORT" := "9000"]> ∅))
      (Some (<["DB_PASSWORD" := "secret"]> (<["DB_HOST" := "db"]> ∅)))
      None None = Ok cfg ∧
    config.Config.Port cfg = "9000" ∧
    config.DBConfig.Host (config.Config.DBConfig cfg) = "db" ∧
    config.DBConfig.Password (config.Config.DBConfig cfg) = "postgres".
Proof.
  eexists. split; [reflexivity|].
  destruct (Load_settings
              (<["DB_PASSWORD" := EmptyString]> (<["PORT" := "9000"]> ∅))
              (Some (<["DB_PASSWORD" := "secret"]> (<["DB_HOST" := "db"]> ∅)))
              None None _ eq_refl) as (_ & _ & Hport & Hhost & _ & _ & Hpw & _).
  split; [exact Hport|]. split; [exact Hhost|exact Hpw].
Defined.

(** X19. No setting of a loaded configuration is empty, whatever the
    environment and the .env file hold: an empty port, host, user, password
    or database name cannot be configured. *)
Theorem Load_no_empty_setting environ dotenv open_err ping_err cfg :
  config.Load environ dotenv open_err ping_err = Ok cfg →
  config.Config.Port cfg ≠ EmptyString ∧
  config.DBConfig.Host (config.Config.DBConfig cfg) ≠ EmptyString ∧
  config.DBConfig.Port (config.Config.DBConfig cfg) ≠ EmptyString ∧
  config.DBConfig.User (config.Config.DBConfig cfg) ≠ EmptyString ∧
  config.DBConfig.Password (config.Config.DBConfig cfg) ≠ EmptyString ∧
  config.DBConfig.DBName (config.Config.DBConfig cfg) ≠ EmptyString.
Proof.
  intros (_ & _ & -> & ->)%Load_Ok. simpl. rewrite <- !getEnv_setting.
  repeat split; by apply getEnv_nonempty.
Qed.

Lemma Load_no_empty_setting_witness :
  ∃ cfg,
    config.Load (<["DB_USER" := EmptyString]> ∅) None None None = Ok cfg ∧
    config.DBConfig.User (config.Config.DBConfig cfg) ≠ EmptyString.
Proof.
  eexists. split; [reflexivity|].
  exact (proj1 (proj2 (proj2 (proj2
           (Load_no_empty_setting (<["DB_USER" := EmptyString]> ∅) None None
              None _ eq_refl))))).
Defined.

(** ** The list, newest first *)

(** X20. On a table the application can be looking at that has rows, and
    with the round trip not refused, GET /api/v1/todos is answered 200 with
    a JSON array: the todos of all the rows, each once, every todo before
    those created earlier. *)
Theorem GET_todos_newest_first d e body :
  reachable d → fault1 e = None → todos d ≠ ∅ →
  ∃ l,
    router.ServeHTTP d e (mkRequest "GET" "/api/v1/todos" body)
      = (d, handlers.respondWithJSON StatusOK
              (json.Array (json.of_Todo <$> l))) ∧
    StronglySorted (λ a b, Todo.CreatedAt b <= Todo.CreatedAt a) l ∧
    length l = size (todos d) ∧
    ∀ t, t ∈ l ↔
         ∃ r, todos d !! Todo.ID t = Some r ∧ Scan (Todo.ID t, r) = Ok t.
Proof.
  intros Hd%reachable_ok He Hne.
  destruct (GetAll_total d e Hd He) as [ts Hts].
  pose proof (GetAll_Ok d e ts Hts) as (rows & Hperm & Hscan & Hsorted & Hnil).
  destruct ts as [l|]; [|by destruct Hne; apply Hnil].
  exists l. split; [|split; [done|split]].
  - unfold router.ServeHTTP. cbn [URL_Path Method].
    change (mux.cleanPath "/api/v1/todos") with "/api/v1/todos".
    rewrite bool_decide_eq_true_2 by done. rewrite (Match_todos "GET").
    rewrite bool_decide_eq_true_2 by done. unfold handlers.GetAllTodos.
    by rewrite Hts.
  - change l with (elems (Some l)).
    rewrite <- (Forall2_length _ _ _ Hscan), Hperm. apply length_map_to_list.
  - intros t. apply (GetAll_elem d e (Some l) t Hts).
Qed.

Lemma GET_todos_newest_first_witness :
  ∃ l,
    router.ServeHTTP (init_sql 7) (no_fault 8 9)
      (mkRequest "GET" "/api/v1/todos" None)
      = (init_sql 7, handlers.respondWithJSON StatusOK
                       (json.Array (json.of_Todo <$> l))) ∧
    length l = 3%nat.
Proof.
  destruct (GET_todos_newest_first (init_sql 7) (no_fault 8 9) None
              (reach_init 7) eq_refl) as (l & Hget & _ & Hlen & _).
  - intros Hempty.
    assert (todos (init_sql 7) !! 1 = None) as H1
      by (rewrite Hempty; apply lookup_empty).
    discriminate H1.
  - exists l. split; [exact Hget|]. rewrite Hlen. reflexivity.
Defined.
